(** * UptimeMonitor: a shallow embedding of [main.go]

    The monitor probes a list of URLs, records status, latency and
    certificate data in a SQL store, and alerts through a Slack webhook
    and through e-mail.  The outside world (HTTP, TLS, SQL, SMTP, the
    wall clock) is a record of answers; the program is written in a small
    state-and-failure monad whose state holds the global [checkedURLs]
    map and the trace of the effects performed so far. *)

From Stdlib Require Import ZArith Lia List Ascii String.
From stdpp Require Import base option gmap strings list pretty.
Import ListNotations.

Local Open Scope string_scope.
Local Open Scope list_scope.
Local Open Scope Z_scope.

(** ** Go's [strings] package, as far as the program uses it *)

Module Strings.

Definition char (n : nat) : string := String (ascii_of_nat n) EmptyString.

(** The characters that the source writes as escapes. *)
Definition quote : string := char 34.
Definition backslash : string := char 92.
Definition nl : string := char 10.
Definition cr : string := char 13.

(** [strings.HasPrefix(s, p)]. *)
Fixpoint HasPrefix (s p : string) {struct p} : bool :=
  match p with
  | EmptyString => true
  | String c p' =>
      match s with
      | EmptyString => false
      | String d s' => if Ascii.eqb c d then HasPrefix s' p' else false
      end
  end.

Fixpoint skip (n : nat) (s : string) : string :=
  match n with
  | O => s
  | S n' => match s with EmptyString => EmptyString | String _ s' => skip n' s' end
  end.

(** [strings.TrimPrefix(s, p)]: [s] without the leading [p], or [s]
    itself when it does not start with [p]. *)
Definition TrimPrefix (s p : string) : string :=
  if HasPrefix s p then skip (String.length p) s else s.

(** [strings.Contains(s, substr)]. *)
Fixpoint Contains (s substr : string) : bool :=
  HasPrefix s substr ||
  match s with
  | EmptyString => false
  | String _ s' => Contains s' substr
  end.

(** [strings.ReplaceAll(s, old, new)] for a non-empty [old]: a left to
    right scan replacing non-overlapping occurrences.  [pending] counts
    the bytes of a matched [old] still to be dropped. *)
Fixpoint replace_from (old new : string) (pending : nat) (s : string) : string :=
  match s with
  | EmptyString => EmptyString
  | String c s' =>
      match pending with
      | S k => replace_from old new k s'
      | O =>
          if HasPrefix s old
          then new +:+ replace_from old new (Nat.pred (String.length old)) s'
          else String c (replace_from old new O s')
      end
  end.

Definition ReplaceAll (s old new : string) : string := replace_from old new O s.

End Strings.

Import Strings.

(** ** The external world *)

(** Go's [time.Duration]: a count of nanoseconds. *)
Definition Duration := Z.

(** An instant, as seconds since the epoch. *)
Definition Time := Z.

(** A positional argument of a SQL statement.  The program passes either a
    string or [responseTime.Seconds()]; for the latter the duration itself
    is kept, not the float64 that [Seconds] makes of it. *)
Inductive sql_arg :=
| SqlString (s : string)
| SqlSeconds (d : Duration).

(** [*http.Response], as far as the program reads it. *)
Record http_response := { StatusCode : Z; Status : string }.

(** [x509.Certificate], as far as the program reads it. *)
Record certificate := { NotAfter : Time; Issuer : string }.

(** [*tls.Conn]: the verdict of [VerifyHostname] on a host ([None] is a
    nil error) and the peer's chain. *)
Record tls_conn := {
  VerifyHostname : string -> option string;
  PeerCertificates : list certificate
}.

(** [smtp.PlainAuth(identity, username, password, host)]. *)
Record smtp_auth := PlainAuth {
  auth_identity : string; auth_username : string;
  auth_password : string; auth_host : string
}.

(** What the outside world answers.  An error is the text of
    [err.Error()]; [None] stands for a nil error. *)
Record Env := {
  getenv : string -> string;
  ans_godotenv_Load : option string;
  ans_sql_Open : string -> string -> option string;
  ans_http_Get : string -> string + http_response;
  ans_http_Post : string -> string -> string -> string + http_response;
  ans_db_Exec : string -> list sql_arg -> option string;
  ans_db_QueryRow_Scan : string -> list sql_arg -> string + string;
  ans_db_Query_Scan : string -> string + list string;
  ans_tls_Dial : string -> string -> string + tls_conn;
  ans_smtp_SendMail : string -> smtp_auth -> string -> list string -> string -> option string;
  ans_time_Now : Time;
  ans_time_Since : string -> Duration;
  ans_time_Format : Time -> string -> string
}.

(** Every interaction with the outside world, in program order. *)
Inductive effect :=
| EHttpGet (url : string)
| EHttpPost (url contentType body : string)
| ESqlOpen (driver dsn : string)
| EDbExec (query : string) (args : list sql_arg)
| EDbQueryRow (query : string) (args : list sql_arg)
| EDbQuery (query : string)
| ETlsDial (network addr : string)
| ESendMail (addr : string) (a : smtp_auth) (from : string) (to : list string) (msg : string)
| EPrint (text : string).

(** ** Program state and the monad of the embedding *)

(** [checkedURLs] is the package-level [map[string]bool]; [log] is the
    trace of effects so far, oldest first. *)
Record world := World {
  checkedURLs : gmap string bool;
  log : list effect
}.

(** How a Go computation ends: it returns, it panics, or it calls
    [os.Exit]. *)
Inductive outcome (A : Type) :=
| Ret (a : A)
| Panic (msg : string)
| Exit (code : Z).
Arguments Ret {A} a.
Arguments Panic {A} msg.
Arguments Exit {A} code.

Definition M (A : Type) : Type := world -> outcome A * world.

Definition ret {A} (a : A) : M A := fun w => (Ret a, w).

Definition bind {A B} (m : M A) (k : A -> M B) : M B :=
  fun w =>
    match m w with
    | (Ret a, w') => k a w'
    | (Panic msg, w') => (Panic msg, w')
    | (Exit c, w') => (Exit c, w')
    end.

Declare Scope go_scope.
Delimit Scope go_scope with go.
Notation "x <~ m ; k" := (bind m (fun x => k))
  (at level 20, m at level 100, k at level 200, only parsing) : go_scope.
Notation "m ;; k" := (bind m (fun _ => k))
  (at level 100, k at level 200, right associativity, only parsing) : go_scope.
Local Open Scope go_scope.

Definition panic {A} (msg : string) : M A := fun w => (Panic msg, w).
Definition os_Exit {A} (code : Z) : M A := fun w => (Exit code, w).

Definition emit (e : effect) : M unit :=
  fun w => (Ret tt, World (checkedURLs w) (log w ++ [e])).

(** Read and write the global map. *)
Definition get_checkedURLs : M (gmap string bool) :=
  fun w => (Ret (checkedURLs w), w).
Definition set_checkedURLs (m : gmap string bool) : M unit :=
  fun w => (Ret tt, World m (log w)).

(** [for _, x := range xs { body }]. *)
Fixpoint for_range {A} (xs : list A) (body : A -> M unit) : M unit :=
  match xs with
  | [] => ret tt
  | x :: xs' => body x ;; for_range xs' body
  end.

(** [if err != nil { body }], where [body] may call [err.Error()]. *)
Definition if_err (err : option string) (body : string -> M unit) : M unit :=
  match err with
  | Some e => body e
  | None => ret tt
  end.

(** ** The program *)

(** [fmt]'s rendering of a string operand under the verb [%d]. *)
Definition Sprintf_d_of_string (s : string) : string :=
  "%!d(string=" +:+ s +:+ ")".

Definition updateWebsiteStatus_query : string :=
  "UPDATE websites SET website_status = ?, last_updated = DATE_ADD(NOW(), INTERVAL 1 HOUR), response_time = ? WHERE website_url = ?".
Definition saveRespTime_query : string :=
  "INSERT INTO response_times (website_url, response_time) VALUES (?, ?)".
Definition checkSSL_query : string :=
  "UPDATE websites SET ssl_issuer = ?, ssl_expired_date = ? WHERE website_url = ?".
Definition clientEmailQuery : string :=
  "SELECT email FROM users WHERE id = (SELECT client FROM websites WHERE website_url = ?)".
Definition getWebsiteURLs_query : string := "SELECT website_url FROM websites".

Definition RFC850 : string := "Monday, 02-Jan-06 15:04:05 MST".

(** The JSON body built by [sendSlackMessage]: the message with every
    double quote escaped, wrapped as the value of the key [text]. *)
Definition slack_payload (message : string) : string :=
  let message := ReplaceAll message quote (backslash +:+ quote) in
  "{" +:+ quote +:+ "text" +:+ quote +:+ ": " +:+ quote +:+ message +:+ quote +:+ "}".

Section Pipeline.

Variable env : Env.

(** The settings read with [os.Getenv]. *)
Definition slackWebhookURL : string := getenv env "SLACK_WEBHOOK_URL".
Definition smtpServer : string := getenv env "SMTP_SERVER".
Definition smtpPort : string := getenv env "SMTP_PORT".
Definition smtpUsername : string := getenv env "SMTP_USERNAME".
Definition smtpPassword : string := getenv env "SMTP_PASSWORD".
Definition senderEmail : string := getenv env "SENDER_EMAIL".
Definition dbUsername : string := getenv env "DB_USERNAME".
Definition dbPassword : string := getenv env "DB_PASSWORD".
Definition dbName : string := getenv env "DB_NAME".
Definition dbServer : string := getenv env "DB_SERVER".
Definition dbPort : string := getenv env "DB_PORT".

(** Library calls: record the call, return the world's answer. *)
Definition http_Get (url : string) : M (string + http_response) :=
  emit (EHttpGet url) ;; ret (ans_http_Get env url).
Definition http_Post (url contentType body : string) : M (string + http_response) :=
  emit (EHttpPost url contentType body) ;; ret (ans_http_Post env url contentType body).
Definition db_Exec (query : string) (args : list sql_arg) : M (option string) :=
  emit (EDbExec query args) ;; ret (ans_db_Exec env query args).
Definition db_QueryRow_Scan (query : string) (args : list sql_arg) : M (string + string) :=
  emit (EDbQueryRow query args) ;; ret (ans_db_QueryRow_Scan env query args).
Definition tls_Dial (network addr : string) : M (string + tls_conn) :=
  emit (ETlsDial network addr) ;; ret (ans_tls_Dial env network addr).
Definition smtp_SendMail (addr : string) (a : smtp_auth) (from : string)
    (to : list string) (msg : string) : M (option string) :=
  emit (ESendMail addr a from to msg) ;; ret (ans_smtp_SendMail env addr a from to msg).
Definition fmt_Print (text : string) : M unit := emit (EPrint text).

Definition sendSlackMessage (message : string) : M unit :=
  let payload := slack_payload message in
  r <~ http_Post slackWebhookURL "application/json" payload ;
  match r with
  | inl err => fmt_Print ("Error sending Slack message: " +:+ err +:+ nl)
  | inr resp =>
      if negb (StatusCode resp =? 200)
      then fmt_Print ("Slack API returned non-OK status: " +:+ Status resp +:+ nl)
      else ret tt
  end.

Definition updateWebsiteStatus (url status : string) (responseTime : Duration) : M unit :=
  err <~ db_Exec updateWebsiteStatus_query
           [SqlString status; SqlSeconds responseTime; SqlString url] ;
  if_err err (fun e =>
    fmt_Print ("Error updating website status for " +:+ url +:+ ": " +:+ e +:+ nl)).

Definition saveRespTime (url : string) (responseTime : Duration) : M unit :=
  err <~ db_Exec saveRespTime_query [SqlString url; SqlSeconds responseTime] ;
  if_err err (fun e =>
    fmt_Print ("Error updating website status for " +:+ url +:+ ": " +:+ e +:+ nl)).

(** [xs[0]] on a slice. *)
Definition index0 {A} (xs : list A) : M A :=
  match xs with
  | x :: _ => ret x
  | [] => panic "runtime error: index out of range [0] with length 0"
  end.

Definition checkSSL (url : string) : M unit :=
  let strippedURL := TrimPrefix url "https://" in
  r <~ tls_Dial "tcp" (strippedURL +:+ ":443") ;
  match r with
  | inl err => panic ("Server doesn't support SSL certificate err: " +:+ err)
  | inr conn =>
      match VerifyHostname conn strippedURL with
      | Some err => panic ("Hostname doesn't match with certificate: " +:+ err)
      | None =>
          c <~ index0 (PeerCertificates conn) ;
          let expiry := NotAfter c in
          c' <~ index0 (PeerCertificates conn) ;
          let issuer := Issuer c' in
          let expiredssl := ans_time_Format env expiry RFC850 in
          err <~ db_Exec checkSSL_query
                   [SqlString issuer; SqlString expiredssl; SqlString url] ;
          if_err err (fun e =>
            fmt_Print ("Error updating website ssl info for " +:+ url +:+ ": " +:+ e +:+ nl))
      end
  end.

Definition sendEmail (to subject body : string) : M unit :=
  let auth := PlainAuth EmptyString smtpUsername smtpPassword smtpServer in
  let msg := "To: " +:+ to +:+ cr +:+ nl +:+ "Subject: " +:+ subject
             +:+ cr +:+ nl +:+ cr +:+ nl +:+ body in
  err <~ smtp_SendMail (smtpServer +:+ ":" +:+ Sprintf_d_of_string smtpPort)
           auth senderEmail [to] msg ;
  if_err err (fun e => fmt_Print ("Error sending email: " +:+ e +:+ nl)).

Definition sendEmailToClient (url status : string) : M unit :=
  r <~ db_QueryRow_Scan clientEmailQuery [SqlString url] ;
  match r with
  | inl err =>
      fmt_Print ("Error getting client email for " +:+ url +:+ ": " +:+ err +:+ nl)
  | inr clientEmail =>
      let subject := "ALERT!!!: Website " +:+ url +:+ " is Down" in
      let body := "Dear user," +:+ nl +:+ nl +:+ "The website " +:+ url
                  +:+ " is currently down." +:+ nl +:+ nl +:+ "Status:" +:+ nl
                  +:+ " " +:+ status +:+ nl +:+ nl +:+ "Please check it ASAP" in
      sendEmail clientEmail subject body
  end.

(** The four chat texts of [checkWebsite]. *)
Definition msg_could_be_down_check (url err timeString : string) : string :=
  "WARNING: Website " +:+ url +:+ " could be down, please check. Status: " +:+ err
  +:+ " " +:+ nl +:+ " Time: " +:+ timeString.
Definition msg_could_be_down (url err timeString : string) : string :=
  "WARNING: Website " +:+ url +:+ " could be down. Status: " +:+ err
  +:+ " " +:+ nl +:+ " Time: " +:+ timeString.
Definition msg_attention_down (url err timeString : string) : string :=
  "ATTENTION: Website " +:+ url +:+ " is down. Status: " +:+ err
  +:+ " " +:+ nl +:+ " Time: " +:+ timeString.
Definition msg_warning_down (url err timeString : string) : string :=
  "WARNING: Website " +:+ url +:+ " is down. Status: " +:+ err
  +:+ " " +:+ nl +:+ " Time: " +:+ timeString.

Definition down_status (code : Z) : string :=
  "Down (Status Code: " +:+ pretty code +:+ ")".

(** [err] is the second result of [http.Get]: nil exactly when a
    response came back. *)
Definition err_of (r : string + http_response) : option string :=
  match r with
  | inl e => Some e
  | inr _ => None
  end.

(** [defer resp.Body.Close()] has no effect that is observed here. *)
Definition checkWebsite (url : string) : M unit :=
  r <~ http_Get url ;
  let err := err_of r in
  let timeString := ans_time_Format env (ans_time_Now env) "2006-01-02 15:04:05" in
  match r with
  | inl e =>
      if Contains e "net/http: TLS handshake timeout" then
        updateWebsiteStatus url e 0 ;;
        fmt_Print ("WEBSITE DOWN --> Error: " +:+ e +:+ nl) ;;
        fmt_Print ("Current time: " +:+ timeString +:+ nl) ;;
        if_err err (fun e' =>
          sendSlackMessage (msg_could_be_down_check url e' timeString))
      else if Contains e "no such host" then
        updateWebsiteStatus url e 0 ;;
        fmt_Print ("WEBSITE DOWN --> Error: " +:+ e +:+ nl) ;;
        fmt_Print ("Current time: " +:+ timeString +:+ nl) ;;
        if_err err (fun e' =>
          sendSlackMessage (msg_could_be_down url e' timeString)) ;;
        sendEmailToClient url e
      else
        updateWebsiteStatus url e 0 ;;
        fmt_Print ("WEBSITE DOWN --> Error: " +:+ e +:+ nl) ;;
        fmt_Print ("Current time: " +:+ timeString +:+ nl) ;;
        sendEmailToClient url e ;;
        if_err err (fun e' =>
          sendSlackMessage (msg_attention_down url e' timeString))
  | inr resp =>
      let responseTime := ans_time_Since env url in
      if StatusCode resp =? 200 then
        updateWebsiteStatus url "Up" responseTime ;;
        saveRespTime url responseTime ;;
        checkSSL url
      else
        updateWebsiteStatus url (down_status (StatusCode resp)) 0 ;;
        fmt_Print ("Website " +:+ url +:+ " is down. Status code: "
                   +:+ pretty (StatusCode resp) +:+ nl) ;;
        sendEmailToClient url (down_status (StatusCode resp)) ;;
        if_err err (fun e' =>
          sendSlackMessage (msg_warning_down url e' timeString))
  end.

Definition getWebsiteURLs : M (list string * option string) :=
  emit (EDbQuery getWebsiteURLs_query) ;;
  match ans_db_Query_Scan env getWebsiteURLs_query with
  | inl err => ret ([], Some err)
  | inr websites => ret (websites, None)
  end.

End Pipeline.

(** ** The dedup set and the scheduler *)

(** [m[url]] on a [map[string]bool]: the zero value when the key is absent. *)
Definition map_index (m : gmap string bool) (url : string) : bool :=
  default false (m !! url).

(** The guard [!checkedURLs[url]] of the tick loop. *)
Definition shouldCheck (url : string) : M bool :=
  m <~ get_checkedURLs ; ret (negb (map_index m url)).

(** The statement [checkedURLs[url] = true]. *)
Definition markChecked (url : string) : M unit :=
  m <~ get_checkedURLs ; set_checkedURLs (<[url := true]> m).

Definition resetCheckedURLs : M unit := set_checkedURLs ∅.

(** A firing of one of the two timers.  A tick carries the answers of the
    outside world during its pass. *)
Inductive timer_event :=
| Tick (env : Env)
| ResetFired.

(** The body of [case <-ticker.C]. *)
Definition on_tick (env : Env) : M unit :=
  p <~ getWebsiteURLs env ;
  let '(websites, err) := p in
  match err with
  | Some e => fmt_Print ("Error fetching website URLs: " +:+ e +:+ nl)
  | None =>
      for_range websites (fun url =>
        go <~ shouldCheck url ;
        if go then checkWebsite env url ;; markChecked url else ret tt)
  end.

(** The ticker loop of [main] interleaved with the goroutine that sleeps
    [resetInterval] and calls [resetCheckedURLs], along a finite schedule
    of timer firings.  Here a reset falls between two passes and the
    firings come in any order; [loop_run] below is the loop with the
    reset falling anywhere, and [run_loop_in_steps] relates the two. *)
Fixpoint run_loop (sched : list timer_event) : M unit :=
  match sched with
  | [] => ret tt
  | Tick env :: sched' => on_tick env ;; run_loop sched'
  | ResetFired :: sched' => resetCheckedURLs ;; run_loop sched'
  end.

Definition loadEnv (env : Env) : M unit :=
  match ans_godotenv_Load env with
  | Some e => fmt_Print e ;; os_Exit 1
  | None => ret tt
  end.

(** Where [main] stands at the end of the schedule: it has returned, or it
    is blocked in its [select]. *)
Inductive main_status := Returned | Selecting.

Definition main (env : Env) (sched : list timer_event) : M main_status :=
  loadEnv env ;;
  sendSlackMessage env "MONITOR --> Starting script.." ;;
  let dsn := dbUsername env +:+ ":" +:+ dbPassword env +:+ "@tcp(" +:+ dbServer env
             +:+ ":" +:+ Sprintf_d_of_string (dbPort env) +:+ ")/" +:+ dbName env in
  emit (ESqlOpen "mysql" dsn) ;;
  match ans_sql_Open env "mysql" dsn with
  | Some e =>
      fmt_Print ("Error connecting to the database: " +:+ e +:+ nl) ;;
      sendSlackMessage env "WARNING --> Database connection error" ;;
      ret Returned
  | None =>
      fmt_Print ("Database connected" +:+ nl) ;;
      sendSlackMessage env ("MONITOR --> Database connected " +:+ nl
                            +:+ "MONITOR --> Script started") ;;
      p <~ getWebsiteURLs env ;
      let '(websites, err) := p in
      if_err err (fun e => fmt_Print ("Error fetching website URLs: " +:+ e +:+ nl)) ;;
      for_range websites (checkWebsite env) ;;
      run_loop sched ;;
      ret Selecting
  end.

(** The exit status of the process: 0 when [main] returns, the argument
    of [os.Exit], 2 for an unrecovered panic; none while it still runs. *)
Definition exit_status (o : outcome main_status) : option Z :=
  match o with
  | Ret Returned => Some 0
  | Ret Selecting => None
  | Panic _ => Some 2
  | Exit code => Some code
  end.

Definition start : world := World ∅ [].

(** ** Reading a trace *)

(** Calls of [updateWebsiteStatus]: url, status label, response time. *)
Definition status_record (e : effect) : option (string * string * Duration) :=
  match e with
  | EDbExec q [SqlString status; SqlSeconds rt; SqlString url] =>
      if String.eqb q updateWebsiteStatus_query then Some (url, status, rt) else None
  | _ => None
  end.

(** Calls of [saveRespTime]: url, response time. *)
Definition latency_sample (e : effect) : option (string * Duration) :=
  match e with
  | EDbExec q [SqlString url; SqlSeconds rt] =>
      if String.eqb q saveRespTime_query then Some (url, rt) else None
  | _ => None
  end.

(** Bodies posted to a webhook. *)
Definition chat_post (e : effect) : option (string * string) :=
  match e with
  | EHttpPost url _ body => Some (url, body)
  | _ => None
  end.

(** Mails handed to the relay: recipients and text. *)
Definition mail (e : effect) : option (list string * string) :=
  match e with
  | ESendMail _ _ _ to msg => Some (to, msg)
  | _ => None
  end.

(** Owner lookups of [sendEmailToClient]: the url looked up. *)
Definition owner_lookup (e : effect) : option string :=
  match e with
  | EDbQueryRow q [SqlString url] =>
      if String.eqb q clientEmailQuery then Some url else None
  | _ => None
  end.

(** Probes: the url fetched. *)
Definition probe (e : effect) : option string :=
  match e with
  | EHttpGet url => Some url
  | _ => None
  end.

(** TLS dials: the address dialled. *)
Definition dial (e : effect) : option string :=
  match e with
  | ETlsDial _ addr => Some addr
  | _ => None
  end.

Definition status_records (l : list effect) := omap status_record l.
Definition latency_samples (l : list effect) := omap latency_sample l.
Definition chat_posts (l : list effect) := omap chat_post l.
Definition mails (l : list effect) := omap mail l.
Definition owner_lookups (l : list effect) := omap owner_lookup l.
Definition probes (l : list effect) := omap probe l.
Definition dials (l : list effect) := omap dial l.

(** How often [url] was probed. *)
Definition probe_count (url : string) (l : list effect) : nat :=
  length (filter (fun u => u = url) (probes l)).

(** The chat texts carry their severity as a leading tag. *)
Inductive severity := Info | Warning | Attention.

Definition severity_of (message : string) : option severity :=
  if HasPrefix message "WARNING" then Some Warning
  else if HasPrefix message "ATTENTION" then Some Attention
  else if HasPrefix message "MONITOR" then Some Info
  else None.

(** ** Trace semantics of the pipeline

    What each function appends to the trace and how it ends, as a function
    of the world's answers alone.  The run lemmas below show that the
    program computes exactly these. *)

(** [w] with [l] appended to its trace. *)
Definition add_log (w : world) (l : list effect) : world :=
  World (checkedURLs w) (log w ++ l).

(** The line printed for a non-nil error. *)
Definition err_line (err : option string) (line : string -> string) : list effect :=
  match err with
  | Some e => [EPrint (line e)]
  | None => []
  end.

Section Events.

Variable env : Env.

Definition status_events (url status : string) (rt : Duration) : list effect :=
  let args := [SqlString status; SqlSeconds rt; SqlString url] in
  EDbExec updateWebsiteStatus_query args
  :: err_line (ans_db_Exec env updateWebsiteStatus_query args)
       (fun e => "Error updating website status for " +:+ url +:+ ": " +:+ e +:+ nl).

Definition sample_events (url : string) (rt : Duration) : list effect :=
  let args := [SqlString url; SqlSeconds rt] in
  EDbExec saveRespTime_query args
  :: err_line (ans_db_Exec env saveRespTime_query args)
       (fun e => "Error updating website status for " +:+ url +:+ ": " +:+ e +:+ nl).

Definition slack_events (message : string) : list effect :=
  let payload := slack_payload message in
  EHttpPost (slackWebhookURL env) "application/json" payload
  :: match ans_http_Post env (slackWebhookURL env) "application/json" payload with
     | inl err => [EPrint ("Error sending Slack message: " +:+ err +:+ nl)]
     | inr resp =>
         if negb (StatusCode resp =? 200)
         then [EPrint ("Slack API returned non-OK status: " +:+ Status resp +:+ nl)]
         else []
     end.

(** The text handed to the mail relay for recipient [to]. *)
Definition mail_text (to url status : string) : string :=
  "To: " +:+ to +:+ cr +:+ nl +:+ "Subject: "
  +:+ ("ALERT!!!: Website " +:+ url +:+ " is Down")
  +:+ cr +:+ nl +:+ cr +:+ nl
  +:+ ("Dear user," +:+ nl +:+ nl +:+ "The website " +:+ url
       +:+ " is currently down." +:+ nl +:+ nl +:+ "Status:" +:+ nl
       +:+ " " +:+ status +:+ nl +:+ nl +:+ "Please check it ASAP").

Definition email_events (url status : string) : list effect :=
  EDbQueryRow clientEmailQuery [SqlString url]
  :: match ans_db_QueryRow_Scan env clientEmailQuery [SqlString url] with
     | inl err =>
         [EPrint ("Error getting client email for " +:+ url +:+ ": " +:+ err +:+ nl)]
     | inr to =>
         let addr := smtpServer env +:+ ":" +:+ Sprintf_d_of_string (smtpPort env) in
         let auth := PlainAuth EmptyString (smtpUsername env) (smtpPassword env)
                       (smtpServer env) in
         let msg := mail_text to url status in
         ESendMail addr auth (senderEmail env) [to] msg
         :: err_line (ans_smtp_SendMail env addr auth (senderEmail env) [to] msg)
              (fun e => "Error sending email: " +:+ e +:+ nl)
     end.

(** The address [checkSSL] dials for [url]. *)
Definition dial_addr (url : string) : string :=
  TrimPrefix url "https://" +:+ ":443".

(** The panic message of [checkSSL] when the dial or the hostname check
    fails, and [None] when both go well. *)
Definition cert_failure (url : string) : option string :=
  match ans_tls_Dial env "tcp" (dial_addr url) with
  | inl err => Some ("Server doesn't support SSL certificate err: " +:+ err)
  | inr conn =>
      match VerifyHostname conn (TrimPrefix url "https://") with
      | Some err => Some ("Hostname doesn't match with certificate: " +:+ err)
      | None => None
      end
  end.

(** What follows the dial in [checkSSL]. *)
Definition ssl_after_dial (url : string) : outcome unit * list effect :=
  match ans_tls_Dial env "tcp" (dial_addr url) with
  | inl err => (Panic ("Server doesn't support SSL certificate err: " +:+ err), [])
  | inr conn =>
      match VerifyHostname conn (TrimPrefix url "https://") with
      | Some err => (Panic ("Hostname doesn't match with certificate: " +:+ err), [])
      | None =>
          match PeerCertificates conn with
          | [] => (Panic "runtime error: index out of range [0] with length 0", [])
          | c :: _ =>
              let args := [SqlString (Issuer c);
                           SqlString (ans_time_Format env (NotAfter c) RFC850);
                           SqlString url] in
              (Ret tt,
               EDbExec checkSSL_query args
               :: err_line (ans_db_Exec env checkSSL_query args)
                    (fun e => "Error updating website ssl info for " +:+ url
                              +:+ ": " +:+ e +:+ nl))
          end
      end
  end.

Definition ssl_outcome (url : string) : outcome unit := fst (ssl_after_dial url).
Definition ssl_events (url : string) : list effect :=
  ETlsDial "tcp" (dial_addr url) :: snd (ssl_after_dial url).

Definition timeString : string :=
  ans_time_Format env (ans_time_Now env) "2006-01-02 15:04:05".

(** The two lines printed for a transport error. *)
Definition down_lines (e : string) : list effect :=
  [EPrint ("WEBSITE DOWN --> Error: " +:+ e +:+ nl);
   EPrint ("Current time: " +:+ timeString +:+ nl)].

Definition checkWebsite_events (url : string) : list effect :=
  EHttpGet url ::
  match ans_http_Get env url with
  | inl e =>
      if Contains e "net/http: TLS handshake timeout" then
        status_events url e 0 ++ down_lines e
        ++ slack_events (msg_could_be_down_check url e timeString)
      else if Contains e "no such host" then
        status_events url e 0 ++ down_lines e
        ++ slack_events (msg_could_be_down url e timeString)
        ++ email_events url e
      else
        status_events url e 0 ++ down_lines e
        ++ email_events url e
        ++ slack_events (msg_attention_down url e timeString)
  | inr resp =>
      if StatusCode resp =? 200 then
        status_events url "Up" (ans_time_Since env url)
        ++ sample_events url (ans_time_Since env url)
        ++ ssl_events url
      else
        status_events url (down_status (StatusCode resp)) 0
        ++ [EPrint ("Website " +:+ url +:+ " is down. Status code: "
                    +:+ pretty (StatusCode resp) +:+ nl)]
        ++ email_events url (down_status (StatusCode resp))
  end.

Definition checkWebsite_outcome (url : string) : outcome unit :=
  match ans_http_Get env url with
  | inl _ => Ret tt
  | inr resp => if StatusCode resp =? 200 then ssl_outcome url else Ret tt
  end.

End Events.

(** ** Sample worlds *)

Module Demo.

Definition colons (s : string) : nat :=
  length (filter (fun c => c = ":"%char) (list_ascii_of_string s)).

Definition ok_conn : tls_conn :=
  {| VerifyHostname := fun _ => None;
     PeerCertificates := [ {| NotAfter := 1900000000; Issuer := "CN=Demo CA" |} ] |}.

Definition get (url : string) : string + http_response :=
  if String.eqb url "https://slow.test"
  then inr {| StatusCode := 503; Status := "503 Service Unavailable" |}
  else if String.eqb url "https://down.test"
  then inl "Get https://down.test: dial tcp: lookup down.test: no such host"
  else if String.eqb url "https://hang.test"
  then inl "Get https://hang.test: net/http: TLS handshake timeout"
  else inr {| StatusCode := 200; Status := "200 OK" |}.

(** A dial that refuses an address with more than one colon, and the
    host [bad.test]. *)
Definition dial (network addr : string) : string + tls_conn :=
  if decide (2 <= colons addr)%nat
  then inl ("dial tcp: address " +:+ addr +:+ ": too many colons in address")
  else if String.eqb addr "bad.test:443"
  then inl "remote error: tls: handshake failure"
  else inr ok_conn.

(** A world where the store opens unless [open_err] says otherwise and
    lists [websites]. *)
Definition env (open_err : option string) (websites : list string) : Env :=
  {| getenv := fun key => "$" +:+ key;
     ans_godotenv_Load := None;
     ans_sql_Open := fun _ _ => open_err;
     ans_http_Get := get;
     ans_http_Post := fun _ _ _ => inr {| StatusCode := 200; Status := "200 OK" |};
     ans_db_Exec := fun _ _ => None;
     ans_db_QueryRow_Scan := fun _ _ => inr "owner@example.com";
     ans_db_Query_Scan := fun _ => inr websites;
     ans_tls_Dial := dial;
     ans_smtp_SendMail := fun _ _ _ _ _ => None;
     ans_time_Now := 1700000000;
     ans_time_Since := fun _ => 120000000;
     ans_time_Format := fun _ layout => layout |}.

(** A world whose [.env] file cannot be read. *)
Definition no_dotenv : Env :=
  {| getenv := fun _ => EmptyString;
     ans_godotenv_Load := Some "open .env: no such file or directory";
     ans_sql_Open := fun _ _ => None;
     ans_http_Get := get;
     ans_http_Post := fun _ _ _ => inr {| StatusCode := 200; Status := "200 OK" |};
     ans_db_Exec := fun _ _ => None;
     ans_db_QueryRow_Scan := fun _ _ => inr "owner@example.com";
     ans_db_Query_Scan := fun _ => inr [];
     ans_tls_Dial := dial;
     ans_smtp_SendMail := fun _ _ _ _ _ => None;
     ans_time_Now := 1700000000;
     ans_time_Since := fun _ => 120000000;
     ans_time_Format := fun _ layout => layout |}.

End Demo.

(** ** Properties used in the statements *)

(** [url] is in the dedup set of [w]. *)
Definition marked (url : string) (w : world) : Prop :=
  map_index (checkedURLs w) url = true.

(** A run from [w] to [r] probes [url] at most once, not at all when it
    was marked, and marks it when it probed it and returned; marks are
    kept. *)
Definition probes_once (url : string) {A} (w : world) (r : outcome A * world) : Prop :=
  (marked url w -> marked url (snd r))
  /\ (marked url w -> probe_count url (log (snd r)) = probe_count url (log w))
  /\ (probe_count url (log w) <= probe_count url (log (snd r)) <= probe_count url (log w) + 1)%nat
  /\ (forall a, fst r = Ret a ->
        probe_count url (log (snd r)) = (probe_count url (log w) + 1)%nat ->
        marked url (snd r)).

(** The network layer splits a dial address at its last colon and refuses
    the address when the host part before it still holds a colon, unless
    the host is a bracketed literal. *)
Definition dial_rejects_extra_colons (env : Env) : Prop :=
  forall network host port,
    Contains host ":" = true -> HasPrefix host "[" = false ->
    exists e, ans_tls_Dial env network (host +:+ ":" +:+ port) = inl e.

(** ** Further readings of a trace and further sample worlds *)

Definition is_print (e : effect) : bool :=
  match e with
  | EPrint _ => true
  | _ => false
  end.

(** A trace without its printed lines. *)
Definition unprinted (l : list effect) : list effect :=
  filter (fun e => is_print e = false) l.

(** Calls of the certificate update of [checkSSL]: url, issuer, expiry. *)
Definition cert_record (e : effect) : option (string * string * string) :=
  match e with
  | EDbExec q [SqlString issuer; SqlString expiredssl; SqlString url] =>
      if String.eqb q checkSSL_query then Some (url, issuer, expiredssl) else None
  | _ => None
  end.

Definition cert_records (l : list effect) := omap cert_record l.

(** Every double quote of [s] stands right after a backslash;
    [after_backslash] tells whether the character before [s] is one. *)
Fixpoint quotes_escaped (after_backslash : bool) (s : string) : bool :=
  match s with
  | EmptyString => true
  | String c s' =>
      (if Ascii.eqb c (ascii_of_nat 34) then after_backslash else true)
      && quotes_escaped (Ascii.eqb c (ascii_of_nat 92)) s'
  end.

(** The panics that [checkSSL] can raise. *)
Definition ssl_panic (msg : string) : Prop :=
  HasPrefix msg "Server doesn't support SSL certificate err: " = true
  \/ HasPrefix msg "Hostname doesn't match with certificate: " = true
  \/ msg = "runtime error: index out of range [0] with length 0".

(** A computation ends by returning or by a panic of [checkSSL]. *)
Definition ends_well {A} (o : outcome A) : Prop :=
  match o with
  | Ret _ => True
  | Panic msg => ssl_panic msg
  | Exit _ => False
  end.

(** [env] with other answers to the writes: SQL statements, webhook
    posts and mail submissions. *)
Definition with_write_answers (env : Env)
    (exec : string -> list sql_arg -> option string)
    (post : string -> string -> string -> string + http_response)
    (send : string -> smtp_auth -> string -> list string -> string -> option string)
    : Env :=
  {| getenv := getenv env;
     ans_godotenv_Load := ans_godotenv_Load env;
     ans_sql_Open := ans_sql_Open env;
     ans_http_Get := ans_http_Get env;
     ans_http_Post := post;
     ans_db_Exec := exec;
     ans_db_QueryRow_Scan := ans_db_QueryRow_Scan env;
     ans_db_Query_Scan := ans_db_Query_Scan env;
     ans_tls_Dial := ans_tls_Dial env;
     ans_smtp_SendMail := send;
     ans_time_Now := ans_time_Now env;
     ans_time_Since := ans_time_Since env;
     ans_time_Format := ans_time_Format env |}.

#[global] Instance marked_dec url w : Decision (marked url w) :=
  decide (map_index (checkedURLs w) url = true).

(** One iteration of the tick loop of [main]: the body of
    [for _, url := range websites] under [case <-ticker.C]. *)
Definition tick_iteration (env : Env) (url : string) : M unit :=
  go <~ shouldCheck url ;
  if go then checkWebsite env url ;; markChecked url else ret tt.

(** ** The loop of [main] and the resetting goroutine, step by step

    The goroutine of [main] assigns [checkedURLs] with no lock, so its
    reset can fall anywhere in a tick pass.  What follows interleaves
    the two at the grain at which they meet: reading the guard and
    checking the url is one step of the main goroutine ([checkWebsite]
    does not touch the map), the assignment [checkedURLs[url] = true]
    is another, and the reset is a step of its own. *)

(** Where the main goroutine stands: blocked in its [select]; at the
    head of the range loop with [urls] still to visit; back from
    [checkWebsite] and about to mark [url]; or gone, the process with it. *)
Inductive main_pc :=
| Waiting
| Guarding (env : Env) (urls : list string)
| Marking (env : Env) (url : string) (urls : list string)
| Dead.

(** [window_start] is the length of the trace at the last reset: the
    effects after it are those of the current window. *)
Record loop_state := LoopState {
  pc : main_pc;
  now : world;
  window_start : nat
}.

(** The ticker delivers a tick to the waiting [main] (which then fetches
    the urls from [env]); [main] takes its next step of the pass; the
    goroutine wakes and resets. *)
Inductive loop_event :=
| Fire (env : Env)
| Advance
| GoroutineReset.

Definition loop_step (st : loop_state) (ev : loop_event) : loop_state :=
  match pc st, ev with
  | Dead, _ => st
  | _, GoroutineReset =>
      let w := snd (resetCheckedURLs (now st)) in
      LoopState (pc st) w (length (log w))
  | Waiting, Fire env =>
      match getWebsiteURLs env (now st) with
      | (Ret (websites, None), w) =>
          LoopState (Guarding env websites) w (window_start st)
      | (Ret (_, Some e), w) =>
          LoopState Waiting
            (snd (fmt_Print ("Error fetching website URLs: " +:+ e +:+ nl) w))
            (window_start st)
      | (_, w) => LoopState Dead w (window_start st)
      end
  | Guarding env [], Advance => LoopState Waiting (now st) (window_start st)
  | Guarding env (url :: urls), Advance =>
      match shouldCheck url (now st) with
      | (Ret true, w) =>
          match checkWebsite env url w with
          | (Ret _, w') => LoopState (Marking env url urls) w' (window_start st)
          | (_, w') => LoopState Dead w' (window_start st)
          end
      | (Ret false, w) => LoopState (Guarding env urls) w (window_start st)
      | (_, w) => LoopState Dead w (window_start st)
      end
  | Marking env url urls, Advance =>
      LoopState (Guarding env urls) (snd (markChecked url (now st))) (window_start st)
  | _, _ => st
  end.

Definition loop_run (evs : list loop_event) (st : loop_state) : loop_state :=
  foldl loop_step st evs.








(** The url that the main goroutine is about to mark. *)
Definition pending (p : main_pc) (url : string) : Prop :=
  match p with
  | Marking _ u _ => u = url
  | _ => False
  end.


(** A whole pass with no reset inside takes at most two steps a url and
    one to leave the loop. *)
Definition pass_steps (env : Env) : nat :=
  match ans_db_Query_Scan env getWebsiteURLs_query with
  | inl _ => 0
  | inr websites => 2 * length websites + 1
  end.

(** A schedule of [run_loop] as a schedule of steps: every pass runs to
    its end before the next timer event. *)
Definition steps_of (ev : timer_event) : list loop_event :=
  match ev with
  | Tick env => Fire env :: repeat Advance (pass_steps env)
  | ResetFired => [GoroutineReset]
  end.

Definition steps_of_schedule (sched : list timer_event) : list loop_event :=
  concat (map steps_of sched).

(** The data source name that [main] hands to [sql.Open]. *)
Definition dsn (env : Env) : string :=
  dbUsername env +:+ ":" +:+ dbPassword env +:+ "@tcp(" +:+ dbServer env
  +:+ ":" +:+ Sprintf_d_of_string (dbPort env) +:+ ")/" +:+ dbName env.

(** The effects of [main] from its first statement up to the first url
    query, when the settings load and the store opens. *)
Definition startup_events (env : Env) : list effect :=
  slack_events env "MONITOR --> Starting script.."
  ++ [ESqlOpen "mysql" (dsn env); EPrint ("Database connected" +:+ nl)]
  ++ slack_events env ("MONITOR --> Database connected " +:+ nl
                       +:+ "MONITOR --> Script started").

Module Faulty.

Definition get (url : string) : string + http_response :=
  if String.eqb url "https://refused.test"
  then inl "Get https://refused.test: dial tcp 203.0.113.7:443: connect: connection refused"
  else Demo.get url.

(** A world like [Demo.env] where the store answers the url query with
    [fetch] and the owner query with [owner]. *)
Definition env (fetch : string + list string) (owner : string + string) : Env :=
  {| getenv := fun key => "$" +:+ key;
     ans_godotenv_Load := None;
     ans_sql_Open := fun _ _ => None;
     ans_http_Get := get;
     ans_http_Post := fun _ _ _ => inr {| StatusCode := 200; Status := "200 OK" |};
     ans_db_Exec := fun _ _ => None;
     ans_db_QueryRow_Scan := fun _ _ => owner;
     ans_db_Query_Scan := fun _ => fetch;
     ans_tls_Dial := Demo.dial;
     ans_smtp_SendMail := fun _ _ _ _ _ => None;
     ans_time_Now := 1700000000;
     ans_time_Since := fun _ => 120000000;
     ans_time_Format := fun _ layout => layout |}.

End Faulty.

(** ** The string functions on sample inputs *)

Example TrimPrefix_https : TrimPrefix "https://ok.test" "https://" = "ok.test".
Proof. reflexivity. Qed.

Example TrimPrefix_http : TrimPrefix "http://ok.test" "https://" = "http://ok.test".
Proof. reflexivity. Qed.

Example Contains_ex : Contains "dial tcp: lookup down.test: no such host" "no such host" = true.
Proof. reflexivity. Qed.

Example ReplaceAll_ex :
  ReplaceAll ("say " +:+ quote +:+ "hi" +:+ quote) quote (backslash +:+ quote)
  = "say " +:+ backslash +:+ quote +:+ "hi" +:+ backslash +:+ quote.
Proof. reflexivity. Qed.

Example pretty_503 : pretty 503 = "503".
Proof. reflexivity. Qed.

(** ** Running computations *)

Lemma add_log_nil w : add_log w [] = w.
Proof. destruct w. unfold add_log. simpl. by rewrite app_nil_r. Qed.

Lemma add_log_add_log w l1 l2 : add_log (add_log w l1) l2 = add_log w (l1 ++ l2).
Proof. unfold add_log. simpl. by rewrite app_assoc. Qed.

Lemma bind_run {A B} (m : M A) (k : A -> M B) w a w' :
  m w = (Ret a, w') -> bind m k w = k a w'.
Proof. intros H. unfold bind. by rewrite H. Qed.

Lemma bind_panic {A B} (m : M A) (k : A -> M B) w msg w' :
  m w = (Panic msg, w') -> bind m k w = (Panic msg, w').
Proof. intros H. unfold bind. by rewrite H. Qed.

Lemma bind_exit {A B} (m : M A) (k : A -> M B) w c w' :
  m w = (Exit c, w') -> bind m k w = (Exit c, w').
Proof. intros H. unfold bind. by rewrite H. Qed.

Lemma bind_ret_l {A B} (a : A) (k : A -> M B) w : bind (ret a) k w = k a w.
Proof. reflexivity. Qed.

Lemma emit_run e w : emit e w = (Ret tt, add_log w [e]).
Proof. reflexivity. Qed.

(** A library call: one effect, then the world's answer. *)
Lemma call_run {A} e (a : A) w : (emit e ;; ret a) w = (Ret a, add_log w [e]).
Proof. reflexivity. Qed.

Lemma if_err_print err line w :
  if_err err (fun e => fmt_Print (line e)) w = (Ret tt, add_log w (err_line err line)).
Proof. destruct err; simpl; [reflexivity | by rewrite add_log_nil]. Qed.

Ltac go_call := erewrite bind_run by apply call_run; cbv beta.

Section Runs.

Variable env : Env.

Lemma updateWebsiteStatus_run url status rt w :
  updateWebsiteStatus env url status rt w
  = (Ret tt, add_log w (status_events env url status rt)).
Proof.
  unfold updateWebsiteStatus, db_Exec, status_events. go_call.
  rewrite if_err_print, add_log_add_log. reflexivity.
Qed.

Lemma saveRespTime_run url rt w :
  saveRespTime env url rt w = (Ret tt, add_log w (sample_events env url rt)).
Proof.
  unfold saveRespTime, db_Exec, sample_events. go_call.
  rewrite if_err_print, add_log_add_log. reflexivity.
Qed.

Lemma sendSlackMessage_run message w :
  sendSlackMessage env message w = (Ret tt, add_log w (slack_events env message)).
Proof.
  unfold sendSlackMessage, http_Post, slack_events, fmt_Print. go_call.
  destruct (ans_http_Post env _ _ _) as [err|resp].
  - rewrite emit_run, add_log_add_log. reflexivity.
  - destruct (negb (StatusCode resp =? 200)).
    + rewrite emit_run, add_log_add_log. reflexivity.
    + reflexivity.
Qed.

Lemma sendEmailToClient_run url status w :
  sendEmailToClient env url status w
  = (Ret tt, add_log w (email_events env url status)).
Proof.
  unfold sendEmailToClient, db_QueryRow_Scan, email_events, fmt_Print. go_call.
  destruct (ans_db_QueryRow_Scan env _ _) as [err|to].
  - rewrite emit_run, add_log_add_log. reflexivity.
  - unfold sendEmail, smtp_SendMail. go_call.
    rewrite if_err_print, !add_log_add_log. reflexivity.
Qed.

Lemma checkSSL_run url w :
  checkSSL env url w = (ssl_outcome env url, add_log w (ssl_events env url)).
Proof.
  unfold checkSSL, tls_Dial, ssl_outcome, ssl_events, ssl_after_dial, dial_addr.
  go_call.
  destruct (ans_tls_Dial env _ _) as [err|conn]; [reflexivity|].
  destruct (VerifyHostname conn _) as [err|]; [reflexivity|].
  destruct (PeerCertificates conn) as [|c cs]; [reflexivity|].
  unfold index0, db_Exec. rewrite !bind_ret_l. go_call.
  rewrite if_err_print, !add_log_add_log. reflexivity.
Qed.

Ltac go_step :=
  first
    [ erewrite bind_run by apply updateWebsiteStatus_run
    | erewrite bind_run by apply saveRespTime_run
    | erewrite bind_run by apply sendSlackMessage_run
    | erewrite bind_run by apply sendEmailToClient_run
    | erewrite bind_run by apply emit_run
    | rewrite updateWebsiteStatus_run
    | rewrite sendSlackMessage_run
    | rewrite sendEmailToClient_run
    | rewrite checkSSL_run
    | rewrite emit_run ];
  cbv beta.

Lemma checkWebsite_run url w :
  checkWebsite env url w
  = (checkWebsite_outcome env url, add_log w (checkWebsite_events env url)).
Proof.
  unfold checkWebsite, http_Get, checkWebsite_outcome, checkWebsite_events,
    down_lines, timeString, fmt_Print.
  go_call.
  destruct (ans_http_Get env url) as [e|resp]; cbn [err_of if_err].
  - destruct (Contains e "net/http: TLS handshake timeout");
      [|destruct (Contains e "no such host")];
      repeat go_step; rewrite !add_log_add_log, <- ?app_assoc; reflexivity.
  - destruct (StatusCode resp =? 200).
    + repeat go_step. rewrite !add_log_add_log, <- ?app_assoc. reflexivity.
    + repeat go_step. unfold ret.
      rewrite !add_log_add_log, <- ?app_assoc. reflexivity.
Qed.

End Runs.

(** ** Facts about the string functions *)

Lemma append_cons x (a b : string) : String x a +:+ b = String x (a +:+ b).
Proof. reflexivity. Qed.

Lemma append_nil_l (b : string) : EmptyString +:+ b = b.
Proof. reflexivity. Qed.

Lemma append_assoc (a b c : string) : (a +:+ b) +:+ c = a +:+ b +:+ c.
Proof.
  induction a as [|x a IH]; [reflexivity|].
  rewrite !append_cons. by f_equal.
Qed.

Lemma HasPrefix_append p s : HasPrefix (p +:+ s) p = true.
Proof.
  induction p as [|c p IH]; [reflexivity|].
  rewrite append_cons. cbn [HasPrefix]. by rewrite Ascii.eqb_refl.
Qed.

Lemma HasPrefix_refl s : HasPrefix s s = true.
Proof. induction s as [|c s IH]; [reflexivity|]. cbn [HasPrefix]. by rewrite Ascii.eqb_refl. Qed.

Lemma Contains_prefix s sub : HasPrefix s sub = true -> Contains s sub = true.
Proof. intros H. destruct s; cbn [Contains]; by rewrite H. Qed.

Lemma Contains_refl s : Contains s s = true.
Proof. apply Contains_prefix, HasPrefix_refl. Qed.

Lemma Contains_intro a sub b : Contains (a +:+ sub +:+ b) sub = true.
Proof.
  induction a as [|c a IH].
  - rewrite append_nil_l. apply Contains_prefix, HasPrefix_append.
  - rewrite append_cons. cbn [Contains]. rewrite IH. apply orb_true_r.
Qed.

Lemma TrimPrefix_other s p : HasPrefix s p = false -> TrimPrefix s p = s.
Proof. intros H. unfold TrimPrefix. by rewrite H. Qed.

(** Replacing a single character commutes with concatenation. *)
Lemma ReplaceAll_char_append c new a b :
  ReplaceAll (a +:+ b) (String c EmptyString) new
  = ReplaceAll a (String c EmptyString) new +:+ ReplaceAll b (String c EmptyString) new.
Proof.
  unfold ReplaceAll. induction a as [|x a IH]; [reflexivity|].
  rewrite append_cons.
  cbn [replace_from HasPrefix String.length Nat.pred].
  destruct (Ascii.eqb c x).
  - by rewrite IH, append_assoc.
  - by rewrite IH, append_cons.
Qed.

Lemma escape_append a b :
  ReplaceAll (a +:+ b) quote (backslash +:+ quote)
  = ReplaceAll a quote (backslash +:+ quote) +:+ ReplaceAll b quote (backslash +:+ quote).
Proof. apply ReplaceAll_char_append. Qed.

Lemma HasPrefix_append_l a b p : HasPrefix a p = true -> HasPrefix (a +:+ b) p = true.
Proof.
  revert a. induction p as [|c p IH]; intros a H; [reflexivity|].
  destruct a as [|d a]; [discriminate|].
  rewrite append_cons. cbn [HasPrefix] in *.
  destruct (Ascii.eqb c d); [by apply IH | discriminate].
Qed.

Lemma Contains_append_l a b sub : Contains a sub = true -> Contains (a +:+ b) sub = true.
Proof.
  induction a as [|c a IH]; cbn [Contains]; intros H.
  - rewrite orb_false_r in H. rewrite append_nil_l.
    apply Contains_prefix. by apply (HasPrefix_append_l EmptyString).
  - apply orb_true_iff in H as [H|H].
    + apply Contains_prefix. by apply HasPrefix_append_l.
    + rewrite append_cons. cbn [Contains]. rewrite (IH H). apply orb_true_r.
Qed.

Lemma Contains_append_r a b sub : Contains b sub = true -> Contains (a +:+ b) sub = true.
Proof.
  intros H. induction a as [|c a IH]; [by rewrite append_nil_l|].
  rewrite append_cons. cbn [Contains]. rewrite IH. apply orb_true_r.
Qed.

(** Search a concatenation for a part that holds the text. *)
Ltac find_part :=
  first [ solve [vm_compute; reflexivity]
        | solve [apply Contains_append_l; find_part]
        | solve [apply Contains_append_r; find_part] ].

(** The escaped message sits between the fixed head and tail of the body. *)
Lemma slack_payload_could_be_down url e ts :
  Contains (slack_payload (msg_could_be_down url e ts)) "could be down" = true.
Proof.
  unfold slack_payload, msg_could_be_down.
  rewrite !escape_append. find_part.
Qed.

(** ** Reading the trace of one check *)

Lemma log_checkWebsite env url w :
  log (snd (checkWebsite env url w)) = log w ++ checkWebsite_events env url.
Proof. by rewrite checkWebsite_run. Qed.

Lemma outcome_checkWebsite env url w :
  fst (checkWebsite env url w) = checkWebsite_outcome env url.
Proof. by rewrite checkWebsite_run. Qed.

Lemma checkedURLs_checkWebsite env url w :
  checkedURLs (snd (checkWebsite env url w)) = checkedURLs w.
Proof. by rewrite checkWebsite_run. Qed.

Ltac trace_cases :=
  unfold checkWebsite_events, status_events, sample_events, slack_events,
    email_events, ssl_events, ssl_after_dial, down_lines, err_line;
  repeat case_match; try discriminate; try reflexivity.

Lemma status_records_checkWebsite env url :
  status_records (checkWebsite_events env url)
  = [match ans_http_Get env url with
     | inl e => (url, e, 0)
     | inr resp =>
         if StatusCode resp =? 200 then (url, "Up", ans_time_Since env url)
         else (url, down_status (StatusCode resp), 0)
     end].
Proof. unfold status_records. trace_cases. Qed.

Lemma latency_samples_checkWebsite env url :
  latency_samples (checkWebsite_events env url)
  = match ans_http_Get env url with
    | inl _ => []
    | inr resp =>
        if StatusCode resp =? 200 then [(url, ans_time_Since env url)] else []
    end.
Proof. unfold latency_samples. trace_cases. Qed.

Lemma probes_checkWebsite env url : probes (checkWebsite_events env url) = [url].
Proof. unfold probes. trace_cases. Qed.

Lemma dials_checkWebsite env url :
  dials (checkWebsite_events env url)
  = match ans_http_Get env url with
    | inl _ => []
    | inr resp => if StatusCode resp =? 200 then [dial_addr url] else []
    end.
Proof. unfold dials. trace_cases. Qed.

Lemma chat_posts_checkWebsite env url :
  chat_posts (checkWebsite_events env url)
  = match ans_http_Get env url with
    | inl e =>
        let message :=
          if Contains e "net/http: TLS handshake timeout"
          then msg_could_be_down_check url e (timeString env)
          else if Contains e "no such host"
          then msg_could_be_down url e (timeString env)
          else msg_attention_down url e (timeString env) in
        [(slackWebhookURL env, slack_payload message)]
    | inr _ => []
    end.
Proof. unfold chat_posts. trace_cases. Qed.

Lemma owner_lookups_checkWebsite env url :
  owner_lookups (checkWebsite_events env url)
  = match ans_http_Get env url with
    | inl e => if Contains e "net/http: TLS handshake timeout" then [] else [url]
    | inr resp => if StatusCode resp =? 200 then [] else [url]
    end.
Proof. unfold owner_lookups. trace_cases. Qed.

Lemma mails_checkWebsite env url :
  mails (checkWebsite_events env url)
  = let to_owner status :=
      match ans_db_QueryRow_Scan env clientEmailQuery [SqlString url] with
      | inl _ => []
      | inr to => [([to], mail_text to url status)]
      end in
    match ans_http_Get env url with
    | inl e => if Contains e "net/http: TLS handshake timeout" then [] else to_owner e
    | inr resp =>
        if StatusCode resp =? 200 then [] else to_owner (down_status (StatusCode resp))
    end.
Proof. unfold mails. trace_cases. Qed.

(** ** The check pipeline *)

Example down_status_503 : down_status 503 = "Down (Status Code: 503)".
Proof. reflexivity. Qed.

(** C9: [checkWebsite] hands [updateWebsiteStatus] the label "Up" with the
    measured response time for a 200 response, "Down (Status Code: N)"
    with response time 0 for any other status N, and the text of the
    transport error with response time 0 when [http.Get] fails. *)
Theorem statusLabel_by_outcome env url w :
  status_records (log (snd (checkWebsite env url w)))
  = status_records (log w) ++
    [match ans_http_Get env url with
     | inl e => (url, e, 0)
     | inr resp =>
         if StatusCode resp =? 200 then (url, "Up", ans_time_Since env url)
         else (url, "Down (Status Code: " +:+ pretty (StatusCode resp) +:+ ")", 0)
     end].
Proof.
  rewrite log_checkWebsite. unfold status_records at 1. rewrite omap_app.
  f_equal. apply status_records_checkWebsite.
Qed.

(** C6: one call of [checkWebsite] records exactly one status, whatever
    the outcome, and records a latency sample exactly once when the
    response has status 200 and never otherwise. *)
Theorem one_status_and_latency_only_on_success env url w :
  let w' := snd (checkWebsite env url w) in
  (exists label rt,
     status_records (log w') = status_records (log w) ++ [(url, label, rt)])
  /\ latency_samples (log w')
     = latency_samples (log w) ++
       match ans_http_Get env url with
       | inl _ => []
       | inr resp =>
           if StatusCode resp =? 200 then [(url, ans_time_Since env url)] else []
       end.
Proof.
  cbn zeta. rewrite log_checkWebsite. split.
  - unfold status_records. rewrite omap_app.
    fold (status_records (checkWebsite_events env url)).
    rewrite status_records_checkWebsite.
    destruct (ans_http_Get env url) as [e|resp]; [|destruct (StatusCode resp =? 200)];
      eauto.
  - unfold latency_samples at 1. rewrite omap_app. f_equal.
    apply latency_samples_checkWebsite.
Qed.

(** C7: when [http.Get] fails with a text holding "no such host" (and not
    the TLS handshake timeout, which is tested first), [checkWebsite]
    posts one chat message tagged WARNING whose body holds "could be
    down", looks up the owner of the url once and, when the lookup
    answers, sends one mail to that owner. *)
Theorem no_such_host_chat_and_email env url w e :
  ans_http_Get env url = inl e ->
  Contains e "net/http: TLS handshake timeout" = false ->
  Contains e "no such host" = true ->
  let w' := snd (checkWebsite env url w) in
  let message := msg_could_be_down url e (timeString env) in
  chat_posts (log w')
  = chat_posts (log w) ++ [(slackWebhookURL env, slack_payload message)]
  /\ severity_of message = Some Warning
  /\ Contains (slack_payload message) "could be down" = true
  /\ owner_lookups (log w') = owner_lookups (log w) ++ [url]
  /\ forall owner,
       ans_db_QueryRow_Scan env clientEmailQuery [SqlString url] = inr owner ->
       mails (log w') = mails (log w) ++ [([owner], mail_text owner url e)].
Proof.
  intros Hget Htls Hhost. cbn zeta. rewrite log_checkWebsite.
  repeat split.
  - unfold chat_posts at 1. rewrite omap_app. f_equal.
    fold (chat_posts (checkWebsite_events env url)).
    by rewrite chat_posts_checkWebsite, Hget, Htls, Hhost.
  - apply slack_payload_could_be_down.
  - unfold owner_lookups at 1. rewrite omap_app. f_equal.
    fold (owner_lookups (checkWebsite_events env url)).
    by rewrite owner_lookups_checkWebsite, Hget, Htls.
  - intros owner Howner. unfold mails at 1. rewrite omap_app. f_equal.
    fold (mails (checkWebsite_events env url)).
    by rewrite mails_checkWebsite, Hget, Htls, Howner.
Qed.

Lemma no_such_host_chat_and_email_witness :
  let env := Demo.env None [] in
  let url := "https://down.test" in
  let e := "Get https://down.test: dial tcp: lookup down.test: no such host" in
  (ans_http_Get env url = inl e
   /\ Contains e "net/http: TLS handshake timeout" = false
   /\ Contains e "no such host" = true)
  /\ let w' := snd (checkWebsite env url start) in
     let message := msg_could_be_down url e (timeString env) in
     chat_posts (log w')
     = chat_posts (log start) ++ [(slackWebhookURL env, slack_payload message)]
     /\ severity_of message = Some Warning
     /\ Contains (slack_payload message) "could be down" = true
     /\ owner_lookups (log w') = owner_lookups (log start) ++ [url]
     /\ forall owner,
          ans_db_QueryRow_Scan env clientEmailQuery [SqlString url] = inr owner ->
          mails (log w') = mails (log start) ++ [([owner], mail_text owner url e)].
Proof.
  split; [repeat split; reflexivity|].
  apply (no_such_host_chat_and_email (Demo.env None []) "https://down.test" start
           "Get https://down.test: dial tcp: lookup down.test: no such host");
    reflexivity.
Defined.

(** C8: when [http.Get] fails with a text holding "net/http: TLS handshake
    timeout", [checkWebsite] posts one chat message tagged WARNING, looks
    up no owner and sends no mail. *)
Theorem tls_timeout_chat_only env url w e :
  ans_http_Get env url = inl e ->
  Contains e "net/http: TLS handshake timeout" = true ->
  let w' := snd (checkWebsite env url w) in
  let message := msg_could_be_down_check url e (timeString env) in
  chat_posts (log w')
  = chat_posts (log w) ++ [(slackWebhookURL env, slack_payload message)]
  /\ severity_of message = Some Warning
  /\ mails (log w') = mails (log w)
  /\ owner_lookups (log w') = owner_lookups (log w).
Proof.
  intros Hget Htls. cbn zeta. rewrite log_checkWebsite.
  repeat split.
  - unfold chat_posts at 1. rewrite omap_app. f_equal.
    fold (chat_posts (checkWebsite_events env url)).
    by rewrite chat_posts_checkWebsite, Hget, Htls.
  - unfold mails at 1. rewrite omap_app.
    fold (mails (checkWebsite_events env url)).
    rewrite mails_checkWebsite, Hget, Htls. apply app_nil_r.
  - unfold owner_lookups at 1. rewrite omap_app.
    fold (owner_lookups (checkWebsite_events env url)).
    rewrite owner_lookups_checkWebsite, Hget, Htls. apply app_nil_r.
Qed.

Lemma tls_timeout_chat_only_witness :
  let env := Demo.env None [] in
  let url := "https://hang.test" in
  let e := "Get https://hang.test: net/http: TLS handshake timeout" in
  (ans_http_Get env url = inl e
   /\ Contains e "net/http: TLS handshake timeout" = true)
  /\ let w' := snd (checkWebsite env url start) in
     let message := msg_could_be_down_check url e (timeString env) in
     chat_posts (log w')
     = chat_posts (log start) ++ [(slackWebhookURL env, slack_payload message)]
     /\ severity_of message = Some Warning
     /\ mails (log w') = mails (log start)
     /\ owner_lookups (log w') = owner_lookups (log start).
Proof.
  split; [split; reflexivity|].
  apply (tls_timeout_chat_only (Demo.env None []) "https://hang.test" start
           "Get https://hang.test: net/http: TLS handshake timeout");
    reflexivity.
Defined.

(** A response with a status other than 200 never reaches the chat: the
    guard [err != nil] before [sendSlackMessage] is false in that branch. *)
Lemma http_failure_posts_no_chat env url w resp :
  ans_http_Get env url = inr resp ->
  chat_posts (log (snd (checkWebsite env url w))) = chat_posts (log w).
Proof.
  intros Hget. rewrite log_checkWebsite. unfold chat_posts at 1.
  rewrite omap_app. fold (chat_posts (checkWebsite_events env url)).
  rewrite chat_posts_checkWebsite, Hget. apply app_nil_r.
Qed.

(** C2: for the url [https://slow.test] answering 503, [checkWebsite]
    records the status "Down (Status Code: 503)" and mails the owner, but
    posts nothing to the chat. *)
Theorem http_503_mail_without_chat :
  let w' := snd (checkWebsite (Demo.env None []) "https://slow.test" start) in
  status_records (log w') = [("https://slow.test", "Down (Status Code: 503)", 0)]
  /\ mails (log w')
     = [(["owner@example.com"],
         mail_text "owner@example.com" "https://slow.test" "Down (Status Code: 503)")]
  /\ chat_posts (log w') = [].
Proof. vm_compute. repeat split; reflexivity. Qed.

(** ** Certificate inspection *)

Lemma ssl_outcome_failure env url msg :
  cert_failure env url = Some msg -> ssl_outcome env url = Panic msg.
Proof.
  unfold cert_failure, ssl_outcome, ssl_after_dial.
  destruct (ans_tls_Dial env _ _) as [err|conn]; [by intros [= <-]|].
  destruct (VerifyHostname conn _) as [err|]; [by intros [= <-] | discriminate].
Qed.

Lemma ssl_events_failure env url msg :
  cert_failure env url = Some msg ->
  ssl_events env url = [ETlsDial "tcp" (dial_addr url)].
Proof.
  unfold cert_failure, ssl_events, ssl_after_dial.
  destruct (ans_tls_Dial env _ _) as [err|conn]; [done|].
  destruct (VerifyHostname conn _) as [err|]; [done | discriminate].
Qed.

(** A panic ends the loop over the remaining urls. *)
Lemma for_range_panic {A} (body : A -> M unit) x xs w msg w' :
  body x w = (Panic msg, w') -> for_range (x :: xs) body w = (Panic msg, w').
Proof. intros H. cbn [for_range]. by apply bind_panic. Qed.

(** C1, as the code has it: when the response has status 200 and the TLS
    dial or the hostname check of [checkSSL] fails, [checkWebsite] panics
    with the message of that failure, after the status and the latency
    sample were recorded; it posts no chat message and sends no mail, and
    the panic passes through whatever follows the call, so it ends the
    pass and no later url of the list is probed. *)
Theorem cert_failure_panics_and_ends_pass env url rest w resp msg :
  ans_http_Get env url = inr resp ->
  StatusCode resp = 200 ->
  cert_failure env url = Some msg ->
  let r := for_range (url :: rest) (checkWebsite env) w in
  checkWebsite env url w = (Panic msg, snd r)
  /\ fst r = Panic msg
  /\ (forall B (k : unit -> M B), bind (checkWebsite env url) k w = (Panic msg, snd r))
  /\ probes (log (snd r)) = probes (log w) ++ [url]
  /\ status_records (log (snd r))
     = status_records (log w) ++ [(url, "Up", ans_time_Since env url)]
  /\ latency_samples (log (snd r))
     = latency_samples (log w) ++ [(url, ans_time_Since env url)]
  /\ chat_posts (log (snd r)) = chat_posts (log w)
  /\ mails (log (snd r)) = mails (log w).
Proof.
  intros Hget H200 Hcert.
  assert (Hrun : checkWebsite env url w
                 = (Panic msg, add_log w (checkWebsite_events env url))).
  { rewrite checkWebsite_run. f_equal. unfold checkWebsite_outcome.
    rewrite Hget, H200. cbn [Z.eqb Pos.eqb]. by apply ssl_outcome_failure. }
  cbn zeta. rewrite (for_range_panic _ _ _ _ _ _ Hrun). cbn [fst snd].
  unfold add_log; cbn [log].
  split; [exact Hrun|]. split; [reflexivity|].
  split; [intros B k; by apply bind_panic|]. repeat split.
  - unfold probes at 1. rewrite omap_app. f_equal. apply probes_checkWebsite.
  - unfold status_records at 1. rewrite omap_app. f_equal.
    fold (status_records (checkWebsite_events env url)).
    by rewrite status_records_checkWebsite, Hget, H200.
  - unfold latency_samples at 1. rewrite omap_app. f_equal.
    fold (latency_samples (checkWebsite_events env url)).
    by rewrite latency_samples_checkWebsite, Hget, H200.
  - unfold chat_posts at 1. rewrite omap_app.
    fold (chat_posts (checkWebsite_events env url)).
    rewrite chat_posts_checkWebsite, Hget. apply app_nil_r.
  - unfold mails at 1. rewrite omap_app.
    fold (mails (checkWebsite_events env url)).
    rewrite mails_checkWebsite, Hget, H200. apply app_nil_r.
Qed.

Lemma cert_failure_panics_and_ends_pass_witness :
  let env := Demo.env None ["https://bad.test"; "https://ok.test"] in
  let msg := "Server doesn't support SSL certificate err: remote error: tls: handshake failure" in
  (ans_http_Get env "https://bad.test" = inr {| StatusCode := 200; Status := "200 OK" |}
   /\ cert_failure env "https://bad.test" = Some msg)
  /\ let r := for_range ["https://bad.test"; "https://ok.test"] (checkWebsite env) start in
     fst r = Panic msg
     /\ probes (log (snd r)) = ["https://bad.test"]
     /\ latency_samples (log (snd r)) = [("https://bad.test", 120000000)].
Proof.
  split; [split; reflexivity|].
  pose proof (cert_failure_panics_and_ends_pass
                (Demo.env None ["https://bad.test"; "https://ok.test"])
                "https://bad.test" ["https://ok.test"] start
                {| StatusCode := 200; Status := "200 OK" |}
                "Server doesn't support SSL certificate err: remote error: tls: handshake failure"
                eq_refl eq_refl eq_refl) as (_ & Hpanic & _ & Hprobes & _ & Hlat & _).
  split; [exact Hpanic|]. split; [exact Hprobes | exact Hlat].
Defined.

(** C1, as stated, fails on the list [https://bad.test; https://ok.test]
    where the first url answers 200 and refuses the TLS handshake: the
    pass ends in a panic, nothing is posted to the chat, and the second
    url is never probed. *)
Lemma cert_failure_aborts_the_pass :
  let env := Demo.env None ["https://bad.test"; "https://ok.test"] in
  let r := for_range ["https://bad.test"; "https://ok.test"] (checkWebsite env) start in
  fst r = Panic "Server doesn't support SSL certificate err: remote error: tls: handshake failure"
  /\ chat_posts (log (snd r)) = []
  /\ probe_count "https://ok.test" (log (snd r)) = 0%nat
  /\ exit_status (fst (main env [] start)) = Some 2.
Proof. vm_compute. repeat split; reflexivity. Qed.

(** C10: for a url [scheme://rest] that does not start with "https://",
    [checkSSL] dials the unstripped url followed by ":443", an address
    that still holds [scheme://]; a network layer that refuses a host
    part holding a colon makes that dial fail, and [checkWebsite] on such
    a url answering 200 takes the error branch of the dial. *)
Theorem other_scheme_dial_fails env url scheme rest resp w :
  url = scheme +:+ "://" +:+ rest ->
  HasPrefix url "https://" = false ->
  HasPrefix url "[" = false ->
  ans_http_Get env url = inr resp ->
  StatusCode resp = 200 ->
  dial_rejects_extra_colons env ->
  let r := checkWebsite env url w in
  dials (log (snd r)) = dials (log w) ++ [url +:+ ":443"]
  /\ Contains (url +:+ ":443") (scheme +:+ "://") = true
  /\ exists e,
       ans_tls_Dial env "tcp" (url +:+ ":443") = inl e
       /\ fst r = Panic ("Server doesn't support SSL certificate err: " +:+ e).
Proof.
  intros Hurl Hhttps Hbracket Hget H200 Hdial. cbn zeta.
  assert (Haddr : dial_addr url = url +:+ ":443").
  { unfold dial_addr. by rewrite TrimPrefix_other. }
  split; [|split].
  - rewrite log_checkWebsite. unfold dials at 1. rewrite omap_app. f_equal.
    fold (dials (checkWebsite_events env url)).
    by rewrite dials_checkWebsite, Hget, H200, Haddr.
  - rewrite Hurl. rewrite <- (append_assoc scheme "://" rest).
    do 2 apply Contains_append_l. apply Contains_refl.
  - destruct (Hdial "tcp" url "443") as [e He]; [|exact Hbracket|].
    { rewrite Hurl. apply Contains_append_r.
      apply (Contains_append_l ":" ("//" +:+ rest)). reflexivity. }
    change (url +:+ ":" +:+ "443") with (url +:+ ":443") in He.
    exists e. split; [exact He|].
    rewrite outcome_checkWebsite. unfold checkWebsite_outcome.
    rewrite Hget, H200. cbn [Z.eqb Pos.eqb].
    unfold ssl_outcome, ssl_after_dial. by rewrite Haddr, He.
Qed.

Lemma colons_append a b : Demo.colons (a +:+ b) = (Demo.colons a + Demo.colons b)%nat.
Proof.
  unfold Demo.colons. induction a as [|c a IH]; [reflexivity|].
  rewrite append_cons. cbn [list_ascii_of_string].
  rewrite !filter_cons. destruct (decide (c = ":"%char)); cbn [length]; lia.
Qed.

Lemma colons_Contains host : Contains host ":" = true -> (1 <= Demo.colons host)%nat.
Proof.
  unfold Demo.colons. induction host as [|c host IH]; [discriminate|].
  cbn [Contains HasPrefix list_ascii_of_string]. rewrite filter_cons.
  destruct (decide (c = ":"%char)) as [->|Hne]; cbn [length]; [lia|].
  destruct (Ascii.eqb_spec ":"%char c) as [<-|_]; [done|].
  cbn [orb]. intros H. apply IH in H. lia.
Qed.

(** The sample dial refuses every address with a colon in its host part. *)
Lemma demo_dial_rejects_extra_colons open_err websites :
  dial_rejects_extra_colons (Demo.env open_err websites).
Proof.
  intros network host port Hcolon _. cbn [ans_tls_Dial Demo.env].
  unfold Demo.dial. rewrite decide_True; [eauto|].
  rewrite !colons_append. apply colons_Contains in Hcolon.
  change (Demo.colons ":") with 1%nat. lia.
Qed.

Lemma other_scheme_dial_fails_witness :
  let env := Demo.env None ["http://plain.test"] in
  let url := "http://plain.test" in
  (HasPrefix url "https://" = false
   /\ ans_http_Get env url = inr {| StatusCode := 200; Status := "200 OK" |}
   /\ dial_rejects_extra_colons env)
  /\ let r := checkWebsite env url start in
     dials (log (snd r)) = dials (log start) ++ ["http://plain.test:443"]
     /\ Contains "http://plain.test:443" "http://" = true
     /\ exists e,
          ans_tls_Dial env "tcp" "http://plain.test:443" = inl e
          /\ fst r = Panic ("Server doesn't support SSL certificate err: " +:+ e).
Proof.
  split.
  - split; [reflexivity|]. split; [reflexivity|].
    apply demo_dial_rejects_extra_colons.
  - apply (other_scheme_dial_fails (Demo.env None ["http://plain.test"])
             "http://plain.test" "http" "plain.test"
             {| StatusCode := 200; Status := "200 OK" |} start);
      try reflexivity.
    apply demo_dial_rejects_extra_colons.
Defined.

(** ** The dedup set and the scheduler *)

Lemma probe_count_app url l1 l2 :
  probe_count url (l1 ++ l2) = (probe_count url l1 + probe_count url l2)%nat.
Proof.
  unfold probe_count, probes. by rewrite omap_app, filter_app, length_app.
Qed.

Lemma probe_count_checkWebsite env u url :
  probe_count u (checkWebsite_events env url) = if decide (url = u) then 1%nat else 0%nat.
Proof.
  unfold probe_count. rewrite probes_checkWebsite, filter_cons, filter_nil.
  by destruct (decide (url = u)).
Qed.

Lemma marked_insert u url m :
  map_index m u = true -> map_index (<[url := true]> m) u = true.
Proof.
  unfold map_index. intros H. destruct (decide (url = u)) as [->|Hne].
  - by rewrite lookup_insert_eq.
  - by rewrite lookup_insert_ne.
Qed.

Lemma shouldCheck_run url w :
  shouldCheck url w = (Ret (negb (map_index (checkedURLs w) url)), w).
Proof. reflexivity. Qed.

Lemma markChecked_run url w :
  markChecked url w = (Ret tt, World (<[url := true]> (checkedURLs w)) (log w)).
Proof. reflexivity. Qed.

Lemma resetCheckedURLs_run w : resetCheckedURLs w = (Ret tt, World ∅ (log w)).
Proof. reflexivity. Qed.

Section Once.

Variable u : string.

Lemma probes_once_ret {A} (a : A) w : probes_once u w (ret a w).
Proof. unfold probes_once, ret. cbn [fst snd]. repeat split; auto; lia. Qed.

(** Effects other than probes change nothing here. *)
Lemma probes_once_quiet {A} (a : A) w l :
  probe_count u l = 0%nat -> probes_once u w (Ret a, add_log w l).
Proof.
  intros Hl. unfold probes_once, marked, add_log; cbn [fst snd log checkedURLs].
  rewrite probe_count_app, Hl. repeat split; auto; lia.
Qed.

Lemma probes_once_bind {A B} (m : M A) (k : A -> M B) w :
  probes_once u w (m w) ->
  (forall a w1, m w = (Ret a, w1) -> probes_once u w1 (k a w1)) ->
  probes_once u w (bind m k w).
Proof.
  intros Hm Hk. unfold bind.
  destruct (m w) as [[a|msg|c] w1] eqn:Hrun.
  2, 3: unfold probes_once in *; cbn [fst snd] in *;
        destruct Hm as (H1 & H2 & H3 & _);
        repeat split; auto; try lia; intros; discriminate.
  unfold probes_once in *.
  specialize (Hk a w1 eq_refl).
  destruct Hm as (M1 & M2 & M3 & M4), Hk as (K1 & K2 & K3 & K4).
  cbn [fst snd] in *. repeat split.
  - auto.
  - intros Hw. rewrite K2, M2; auto.
  - lia.
  - destruct (decide (probe_count u (log w1) = probe_count u (log w))) as [Heq|Hne].
    + lia.
    + rewrite K2; [lia|]. apply (M4 a); [reflexivity | lia].
  - intros b Hb Hcount.
    destruct (decide (probe_count u (log w1) = probe_count u (log w))) as [Heq|Hne].
    + apply (K4 b Hb). lia.
    + apply K1, (M4 a); [reflexivity | lia].
Qed.

Lemma probes_once_for_range {A} (body : A -> M unit) xs :
  (forall x w, probes_once u w (body x w)) ->
  forall w, probes_once u w (for_range xs body w).
Proof.
  intros Hbody. induction xs as [|x xs IH]; intros w; cbn [for_range].
  - apply probes_once_ret.
  - apply probes_once_bind; auto.
Qed.

(** One iteration of the tick loop. *)
Lemma probes_once_iteration env url w :
  probes_once u w
    ((go <~ shouldCheck url ;
      if go then checkWebsite env url ;; markChecked url else ret tt) w).
Proof.
  rewrite (bind_run _ _ _ _ _ (shouldCheck_run url w)).
  destruct (map_index (checkedURLs w) url) eqn:Hidx; cbn [negb].
  { apply probes_once_ret. }
  unfold bind. rewrite checkWebsite_run.
  unfold probes_once, marked.
  destruct (checkWebsite_outcome env url) as [[]|msg|c];
    rewrite ?markChecked_run;
    cbn [fst snd add_log log checkedURLs];
    rewrite probe_count_app, probe_count_checkWebsite;
    destruct (decide (url = u)) as [->|Hne];
    repeat split; intros; try congruence; try lia;
    try (by apply marked_insert); try discriminate.
  unfold map_index. by rewrite lookup_insert_eq.
Qed.

Lemma probes_once_on_tick env w : probes_once u w (on_tick env w).
Proof.
  unfold on_tick, getWebsiteURLs.
  apply probes_once_bind.
  - rewrite (bind_run _ _ _ _ _ (emit_run _ _)).
    destruct (ans_db_Query_Scan env _); by apply probes_once_quiet.
  - intros [websites [e|]] w1 _.
    + unfold fmt_Print. rewrite emit_run. by apply probes_once_quiet.
    + apply probes_once_for_range. intros url w2. apply probes_once_iteration.
Qed.

Lemma probes_once_ticks envs w :
  probes_once u w (run_loop (map Tick envs) w).
Proof.
  revert w. induction envs as [|env envs IH]; intros w; cbn [map run_loop].
  - apply probes_once_ret.
  - apply probes_once_bind; [apply probes_once_on_tick | auto].
Qed.

End Once.

(** Along any number of whole tick passes with no reset between them,
    from any state of the dedup set, every url is probed at most once. *)
Theorem tick_passes_probe_at_most_once url envs w :
  (probe_count url (log (snd (run_loop (map Tick envs) w)))
   <= probe_count url (log w) + 1)%nat.
Proof. destruct (probes_once_ticks url envs w) as (_ & _ & H & _). lia. Qed.

(** The startup pass does not mark what it probes: were a tick
    delivered before the first reset, or a url listed twice by the
    store, the url would be probed twice before the first reset. *)
Lemma startup_pass_then_tick_probes_twice :
  let env := Demo.env None ["https://ok.test"] in
  let r := main env [Tick env] start in
  let env2 := Demo.env None ["https://ok.test"; "https://ok.test"] in
  let r2 := main env2 [] start in
  (fst r = Ret Selecting
   /\ probe_count "https://ok.test" (log (snd r)) = 2%nat
   /\ length (status_records (log (snd r))) = 2%nat)
  /\ (fst r2 = Ret Selecting
      /\ probe_count "https://ok.test" (log (snd r2)) = 2%nat).
Proof. vm_compute. repeat split; reflexivity. Qed.

(** C5: once a url is marked, [shouldCheck] answers false for it, and
    still does after any number of tick passes without a reset;
    [resetCheckedURLs] replaces the map by an empty one, after which
    [shouldCheck] answers true for every url. *)
Theorem marked_until_reset url envs w :
  let w1 := snd (markChecked url w) in
  let w2 := snd (run_loop (map Tick envs) w1) in
  let w3 := snd (resetCheckedURLs w2) in
  fst (shouldCheck url w1) = Ret false
  /\ fst (shouldCheck url w2) = Ret false
  /\ checkedURLs w3 = ∅
  /\ forall u, fst (shouldCheck u w3) = Ret true.
Proof.
  cbn zeta.
  assert (Hmark : marked url (snd (markChecked url w))).
  { rewrite markChecked_run. unfold marked, map_index. cbn [snd checkedURLs].
    by rewrite lookup_insert_eq. }
  assert (Hshould : forall w', marked url w' -> fst (shouldCheck url w') = Ret false).
  { intros w' H. rewrite shouldCheck_run. cbn [fst]. unfold marked in H. by rewrite H. }
  split; [by apply Hshould|]. split.
  - apply Hshould.
    destruct (probes_once_ticks url envs (snd (markChecked url w))) as (H & _).
    by apply H.
  - split; [reflexivity|]. intros u.
    rewrite shouldCheck_run, resetCheckedURLs_run. unfold map_index.
    cbn [fst snd checkedURLs]. by rewrite lookup_empty.
Qed.

(** ** Start-up *)

(** When [godotenv.Load] fails, [loadEnv] calls [os.Exit(1)]. *)
Lemma no_dotenv_exits_1 sched :
  exit_status (fst (main Demo.no_dotenv sched start)) = Some 1.
Proof. reflexivity. Qed.

(** C3: when [sql.Open] fails, [main] prints the error, posts a chat
    message and returns, so the process ends with exit status 0. *)
Theorem database_open_failure_exits_0 sched :
  let env := Demo.env (Some "sql: unknown driver") ["https://ok.test"] in
  let r := main env sched start in
  fst r = Ret Returned
  /\ exit_status (fst r) = Some 0
  /\ probes (log (snd r)) = [].
Proof. vm_compute. repeat split; reflexivity. Qed.

(** ** Further properties of one check *)

Lemma chat_posts_app l1 l2 : chat_posts (l1 ++ l2) = chat_posts l1 ++ chat_posts l2.
Proof. apply omap_app. Qed.

Lemma mails_app l1 l2 : mails (l1 ++ l2) = mails l1 ++ mails l2.
Proof. apply omap_app. Qed.

Lemma owner_lookups_app l1 l2 :
  owner_lookups (l1 ++ l2) = owner_lookups l1 ++ owner_lookups l2.
Proof. apply omap_app. Qed.

Lemma cert_records_app l1 l2 : cert_records (l1 ++ l2) = cert_records l1 ++ cert_records l2.
Proof. apply omap_app. Qed.

(** X1: a check whose response has status 200 posts nothing to the chat,
    looks up no owner and sends no mail, whether [checkSSL] then returns
    or panics. *)
Theorem success_sends_no_notification env url w resp :
  ans_http_Get env url = inr resp ->
  StatusCode resp = 200 ->
  let w' := snd (checkWebsite env url w) in
  chat_posts (log w') = chat_posts (log w)
  /\ owner_lookups (log w') = owner_lookups (log w)
  /\ mails (log w') = mails (log w).
Proof.
  intros Hget H200. cbn zeta. rewrite log_checkWebsite.
  rewrite chat_posts_app, owner_lookups_app, mails_app.
  rewrite chat_posts_checkWebsite, owner_lookups_checkWebsite, mails_checkWebsite.
  rewrite Hget, H200. cbn [Z.eqb Pos.eqb]. by rewrite !app_nil_r.
Qed.

Lemma success_sends_no_notification_witness :
  let env := Demo.env None [] in
  (ans_http_Get env "https://bad.test" = inr {| StatusCode := 200; Status := "200 OK" |})
  /\ let w' := snd (checkWebsite env "https://bad.test" start) in
     chat_posts (log w') = chat_posts (log start)
     /\ owner_lookups (log w') = owner_lookups (log start)
     /\ mails (log w') = mails (log start).
Proof.
  split; [reflexivity|].
  apply (success_sends_no_notification (Demo.env None []) "https://bad.test" start
           {| StatusCode := 200; Status := "200 OK" |}); reflexivity.
Defined.

(** X2: when [http.Get] fails with a text that holds neither "net/http:
    TLS handshake timeout" nor "no such host", the check posts one chat
    message tagged ATTENTION, looks up the owner once, mails the owner
    when the lookup answers, and returns. *)
Theorem other_transport_failure_attention env url w e :
  ans_http_Get env url = inl e ->
  Contains e "net/http: TLS handshake timeout" = false ->
  Contains e "no such host" = false ->
  let r := checkWebsite env url w in
  let message := msg_attention_down url e (timeString env) in
  fst r = Ret tt
  /\ chat_posts (log (snd r))
     = chat_posts (log w) ++ [(slackWebhookURL env, slack_payload message)]
  /\ severity_of message = Some Attention
  /\ owner_lookups (log (snd r)) = owner_lookups (log w) ++ [url]
  /\ forall owner,
       ans_db_QueryRow_Scan env clientEmailQuery [SqlString url] = inr owner ->
       mails (log (snd r)) = mails (log w) ++ [([owner], mail_text owner url e)].
Proof.
  intros Hget Htls Hhost. cbn zeta.
  rewrite outcome_checkWebsite, log_checkWebsite.
  rewrite chat_posts_app, owner_lookups_app, mails_app.
  rewrite chat_posts_checkWebsite, owner_lookups_checkWebsite, mails_checkWebsite.
  unfold checkWebsite_outcome. rewrite Hget, Htls, Hhost.
  repeat split. intros owner Howner. by rewrite Howner.
Qed.

Lemma other_transport_failure_attention_witness :
  let env := Faulty.env (inr []) (inr "owner@example.com") in
  let url := "https://refused.test" in
  let e := "Get https://refused.test: dial tcp 203.0.113.7:443: connect: connection refused" in
  (ans_http_Get env url = inl e
   /\ Contains e "net/http: TLS handshake timeout" = false
   /\ Contains e "no such host" = false)
  /\ let r := checkWebsite env url start in
     fst r = Ret tt
     /\ chat_posts (log (snd r))
        = [(slackWebhookURL env, slack_payload (msg_attention_down url e (timeString env)))]
     /\ mails (log (snd r)) = [(["owner@example.com"], mail_text "owner@example.com" url e)].
Proof.
  split; [repeat split; reflexivity|].
  pose proof (other_transport_failure_attention
                (Faulty.env (inr []) (inr "owner@example.com")) "https://refused.test" start
                "Get https://refused.test: dial tcp 203.0.113.7:443: connect: connection refused"
                eq_refl eq_refl eq_refl) as (Hret & Hchat & _ & _ & Hmail).
  split; [exact Hret|]. split; [exact Hchat|]. exact (Hmail _ eq_refl).
Defined.

(** In an escaped message every double quote stands right after a
    backslash. *)
Lemma escaped_message_quotes b message :
  quotes_escaped b (ReplaceAll message quote (backslash +:+ quote)) = true.
Proof.
  unfold ReplaceAll. revert b.
  induction message as [|c m IH]; intros b; [reflexivity|].
  cbn [replace_from HasPrefix quote backslash char String.length Nat.pred].
  destruct (Ascii.eqb (ascii_of_nat 34) c) eqn:Hc.
  - apply Ascii.eqb_eq in Hc as <-.
    change (quotes_escaped b (String (ascii_of_nat 92) (String (ascii_of_nat 34)
              (replace_from quote (backslash +:+ quote) 0 m))) = true).
    cbn [quotes_escaped]. rewrite IH. reflexivity.
  - cbn [quotes_escaped]. rewrite Ascii.eqb_sym, Hc. by rewrite IH.
Qed.

(** How escaping and its inverse treat the first character. *)
Lemma escape_quote m :
  ReplaceAll (String (ascii_of_nat 34) m) quote (backslash +:+ quote)
  = String (ascii_of_nat 92)
      (String (ascii_of_nat 34) (ReplaceAll m quote (backslash +:+ quote))).
Proof. reflexivity. Qed.

Lemma escape_other c m :
  c <> ascii_of_nat 34 ->
  ReplaceAll (String c m) quote (backslash +:+ quote)
  = String c (ReplaceAll m quote (backslash +:+ quote)).
Proof.
  intros Hc. unfold ReplaceAll.
  cbn [replace_from HasPrefix quote char].
  destruct (Ascii.eqb_spec (ascii_of_nat 34) c) as [<-|_]; [done | reflexivity].
Qed.

Lemma unescape_pair m :
  ReplaceAll (String (ascii_of_nat 92) (String (ascii_of_nat 34) m))
    (backslash +:+ quote) quote
  = String (ascii_of_nat 34) (ReplaceAll m (backslash +:+ quote) quote).
Proof. reflexivity. Qed.

Lemma unescape_other c m :
  HasPrefix (String c m) (backslash +:+ quote) = false ->
  ReplaceAll (String c m) (backslash +:+ quote) quote
  = String c (ReplaceAll m (backslash +:+ quote) quote).
Proof. intros H. unfold ReplaceAll. cbn [replace_from]. by rewrite H. Qed.

(** An escaped message never starts with a double quote. *)
Lemma escaped_message_head message rest :
  ReplaceAll message quote (backslash +:+ quote) <> String (ascii_of_nat 34) rest.
Proof.
  destruct message as [|c m]; [discriminate|].
  destruct (decide (c = ascii_of_nat 34)) as [->|Hc].
  - rewrite escape_quote. discriminate.
  - rewrite (escape_other _ _ Hc). congruence.
Qed.

(** Putting the double quotes back for each backslash-quote pair undoes
    the escaping. *)
Lemma unescape_escape message :
  ReplaceAll (ReplaceAll message quote (backslash +:+ quote)) (backslash +:+ quote) quote
  = message.
Proof.
  induction message as [|c m IH]; [reflexivity|].
  destruct (decide (c = ascii_of_nat 34)) as [->|Hc].
  - by rewrite escape_quote, unescape_pair, IH.
  - rewrite (escape_other _ _ Hc), unescape_other; [by rewrite IH|].
    pose proof (escaped_message_head m) as Hhead.
    destruct (ReplaceAll m quote (backslash +:+ quote)) as [|d r];
      change (backslash +:+ quote)
        with (String (ascii_of_nat 92) (String (ascii_of_nat 34) EmptyString));
      cbn [HasPrefix]; destruct (Ascii.eqb (ascii_of_nat 92) c); try reflexivity.
    destruct (Ascii.eqb_spec (ascii_of_nat 34) d) as [<-|_]; [|reflexivity].
    by destruct (Hhead r).
Qed.

(** X3: the body that [sendSlackMessage] posts is the fixed head, an
    escaped message and the fixed tail; in the escaped message every
    double quote stands right after a backslash, and putting a double
    quote back for each backslash-quote pair gives the message again. *)
Theorem posted_body_escapes_quotes env message w :
  exists escaped,
    chat_posts (log (snd (sendSlackMessage env message w)))
    = chat_posts (log w)
      ++ [(slackWebhookURL env,
           "{" +:+ quote +:+ "text" +:+ quote +:+ ": " +:+ quote
           +:+ escaped +:+ quote +:+ "}")]
    /\ quotes_escaped false escaped = true
    /\ ReplaceAll escaped (backslash +:+ quote) quote = message.
Proof.
  exists (ReplaceAll message quote (backslash +:+ quote)).
  split; [|split; [apply escaped_message_quotes | apply unescape_escape]].
  rewrite sendSlackMessage_run. cbn [snd]. unfold add_log; cbn [log].
  rewrite chat_posts_app. f_equal.
  unfold slack_events, chat_posts. cbn zeta. by repeat case_match.
Qed.

Lemma ReplaceAll_absent message new :
  Contains message quote = false -> ReplaceAll message quote new = message.
Proof.
  unfold ReplaceAll. induction message as [|c m IH]; [reflexivity|].
  cbn [Contains]. intros H. apply orb_false_iff in H as [Hc Hm].
  cbn [replace_from]. rewrite Hc. f_equal. by apply IH.
Qed.

(** X4: a message without a double quote is posted verbatim between the
    fixed head and tail of the body. *)
Theorem payload_of_quote_free_message message :
  Contains message quote = false ->
  slack_payload message
  = "{" +:+ quote +:+ "text" +:+ quote +:+ ": " +:+ quote +:+ message +:+ quote +:+ "}".
Proof. intros H. unfold slack_payload. cbn zeta. by rewrite ReplaceAll_absent. Qed.

Lemma payload_of_quote_free_message_witness :
  Contains "MONITOR --> Starting script.." quote = false
  /\ slack_payload "MONITOR --> Starting script.."
     = "{" +:+ quote +:+ "text" +:+ quote +:+ ": " +:+ quote
       +:+ "MONITOR --> Starting script.." +:+ quote +:+ "}".
Proof.
  split; [reflexivity|].
  apply (payload_of_quote_free_message "MONITOR --> Starting script.."). reflexivity.
Defined.

(** X5: when the owner lookup fails, a check sends no mail, whatever the
    probe gave; and the failed lookup does not stop a check whose probe
    failed or answered another status than 200: it returns. *)
Theorem no_owner_no_mail env url w err :
  ans_db_QueryRow_Scan env clientEmailQuery [SqlString url] = inl err ->
  let r := checkWebsite env url w in
  mails (log (snd r)) = mails (log w)
  /\ (match ans_http_Get env url with
      | inl _ => True
      | inr resp => StatusCode resp <> 200
      end -> fst r = Ret tt).
Proof.
  intros Howner. cbn zeta. rewrite outcome_checkWebsite, log_checkWebsite.
  rewrite mails_app, mails_checkWebsite, Howner. split.
  - destruct (ans_http_Get env url) as [e|resp];
      [destruct (Contains e _) | destruct (StatusCode resp =? 200)];
      apply app_nil_r.
  - unfold checkWebsite_outcome.
    destruct (ans_http_Get env url) as [e|resp]; [done|].
    intros Hne. apply Z.eqb_neq in Hne. by rewrite Hne.
Qed.

Lemma no_owner_no_mail_witness :
  let env := Faulty.env (inr []) (inl "sql: no rows in result set") in
  (ans_db_QueryRow_Scan env clientEmailQuery [SqlString "https://slow.test"]
   = inl "sql: no rows in result set")
  /\ let r := checkWebsite env "https://slow.test" start in
     mails (log (snd r)) = [] /\ fst r = Ret tt.
Proof.
  split; [reflexivity|].
  pose proof (no_owner_no_mail (Faulty.env (inr []) (inl "sql: no rows in result set"))
                "https://slow.test" start "sql: no rows in result set" eq_refl)
    as [Hmail Hret].
  split; [exact Hmail|]. apply Hret. discriminate.
Defined.

(** X6: one check posts at most one chat message and sends at most one
    mail; a mail goes to exactly one recipient, the address that the
    owner lookup for the url answered. *)
Theorem at_most_one_chat_and_mail env url w :
  let w' := snd (checkWebsite env url w) in
  (chat_posts (log w') = chat_posts (log w)
   \/ exists body, chat_posts (log w') = chat_posts (log w) ++ [(slackWebhookURL env, body)])
  /\ (mails (log w') = mails (log w)
      \/ exists owner status,
           ans_db_QueryRow_Scan env clientEmailQuery [SqlString url] = inr owner
           /\ mails (log w') = mails (log w) ++ [([owner], mail_text owner url status)]).
Proof.
  cbn zeta. rewrite log_checkWebsite, chat_posts_app, mails_app.
  rewrite chat_posts_checkWebsite, mails_checkWebsite. split.
  - destruct (ans_http_Get env url) as [e|resp].
    + right. eexists. reflexivity.
    + left. apply app_nil_r.
  - destruct (ans_db_QueryRow_Scan env _ _) as [err|owner].
    + left. destruct (ans_http_Get env url) as [e|resp];
        [destruct (Contains e _) | destruct (StatusCode resp =? 200)];
        apply app_nil_r.
    + destruct (ans_http_Get env url) as [e|resp].
      * destruct (Contains e _); [left; apply app_nil_r|].
        right. exists owner, e. split; reflexivity.
      * destruct (StatusCode resp =? 200); [left; apply app_nil_r|].
        right. exists owner, (down_status (StatusCode resp)). split; reflexivity.
Qed.

Lemma skip_length_append p s : skip (String.length p) (p +:+ s) = s.
Proof. induction p as [|c p IH]; [reflexivity|]. rewrite append_cons. exact IH. Qed.

Lemma TrimPrefix_append p s : TrimPrefix (p +:+ s) p = s.
Proof. unfold TrimPrefix. by rewrite HasPrefix_append, skip_length_append. Qed.

(** X7: for a url that starts with "https://", [checkSSL] dials all that
    follows the scheme, a path included, followed by ":443". *)
Theorem https_dial_address env rest w :
  dials (log (snd (checkSSL env ("https://" +:+ rest) w)))
  = dials (log w) ++ [rest +:+ ":443"].
Proof.
  rewrite checkSSL_run. cbn [snd]. unfold add_log; cbn [log].
  unfold dials at 1. rewrite omap_app. f_equal.
  unfold ssl_events, ssl_after_dial, dial_addr, err_line.
  rewrite TrimPrefix_append. repeat case_match; reflexivity.
Qed.

(** X8: when the dial and the hostname check go well, [checkSSL] stores
    the issuer and the expiry, in the RFC 850 layout, of the first
    certificate of the chain and returns; a failing store only prints. *)
Theorem checkSSL_records_first_certificate env url w conn c cs :
  ans_tls_Dial env "tcp" (TrimPrefix url "https://" +:+ ":443") = inr conn ->
  VerifyHostname conn (TrimPrefix url "https://") = None ->
  PeerCertificates conn = c :: cs ->
  let r := checkSSL env url w in
  fst r = Ret tt
  /\ cert_records (log (snd r))
     = cert_records (log w)
       ++ [(url, Issuer c, ans_time_Format env (NotAfter c) RFC850)].
Proof.
  intros Hdial Hverify Hchain. cbn zeta. rewrite checkSSL_run. cbn [fst snd].
  unfold add_log; cbn [log]. rewrite cert_records_app.
  unfold ssl_outcome, ssl_events, ssl_after_dial, dial_addr, err_line.
  rewrite Hdial, Hverify, Hchain. split; [reflexivity|]. f_equal.
  unfold cert_records. by case_match.
Qed.

Lemma checkSSL_records_first_certificate_witness :
  let env := Demo.env None [] in
  (ans_tls_Dial env "tcp" "ok.test:443" = inr Demo.ok_conn)
  /\ let r := checkSSL env "https://ok.test" start in
     fst r = Ret tt
     /\ cert_records (log (snd r))
        = [("https://ok.test", "CN=Demo CA", "Monday, 02-Jan-06 15:04:05 MST")].
Proof.
  split; [reflexivity|].
  apply (checkSSL_records_first_certificate (Demo.env None []) "https://ok.test" start
           Demo.ok_conn {| NotAfter := 1900000000; Issuer := "CN=Demo CA" |} []);
    reflexivity.
Defined.

(** X9: the probe is the first effect of a check and the status record
    the second: the status is stored before any chat post, owner lookup,
    mail, latency sample or TLS dial. *)
Theorem probe_then_status_first env url w :
  exists status rt rest,
    log (snd (checkWebsite env url w))
    = log w ++ EHttpGet url
               :: EDbExec updateWebsiteStatus_query
                    [SqlString status; SqlSeconds rt; SqlString url]
               :: rest.
Proof.
  rewrite log_checkWebsite. unfold checkWebsite_events, status_events.
  destruct (ans_http_Get env url) as [e|resp];
    [destruct (Contains e _); [|destruct (Contains e _)]
    |destruct (StatusCode resp =? 200)];
    cbn [app]; eauto.
Qed.

(** X19: the certificate is inspected exactly when the response has
    status 200: a check dials TLS once after a 200 response and never
    after another status or a transport error. *)
Theorem certificate_inspected_only_on_200 env url w :
  dials (log (snd (checkWebsite env url w)))
  = dials (log w) ++
    match ans_http_Get env url with
    | inl _ => []
    | inr resp =>
        if StatusCode resp =? 200
        then [TrimPrefix url "https://" +:+ ":443"]
        else []
    end.
Proof.
  rewrite log_checkWebsite. unfold dials at 1. rewrite omap_app. f_equal.
  apply dials_checkWebsite.
Qed.

(** ** Writes are best effort *)

Lemma unprinted_app l1 l2 : unprinted (l1 ++ l2) = unprinted l1 ++ unprinted l2.
Proof. apply filter_app. Qed.

Lemma unprinted_err_line err line : unprinted (err_line err line) = [].
Proof. by destruct err. Qed.

Lemma unprinted_status_events env url status rt :
  unprinted (status_events env url status rt)
  = [EDbExec updateWebsiteStatus_query
       [SqlString status; SqlSeconds rt; SqlString url]].
Proof.
  unfold status_events. cbn zeta.
  change (?e :: ?l) with ([e] ++ l). by rewrite unprinted_app, unprinted_err_line.
Qed.

Lemma unprinted_sample_events env url rt :
  unprinted (sample_events env url rt)
  = [EDbExec saveRespTime_query [SqlString url; SqlSeconds rt]].
Proof.
  unfold sample_events. cbn zeta.
  change (?e :: ?l) with ([e] ++ l). by rewrite unprinted_app, unprinted_err_line.
Qed.

Lemma unprinted_slack_events env message :
  unprinted (slack_events env message)
  = [EHttpPost (slackWebhookURL env) "application/json" (slack_payload message)].
Proof. unfold slack_events. cbn zeta. by repeat case_match. Qed.

Lemma unprinted_email_events env url status :
  unprinted (email_events env url status)
  = EDbQueryRow clientEmailQuery [SqlString url]
    :: match ans_db_QueryRow_Scan env clientEmailQuery [SqlString url] with
       | inl _ => []
       | inr to =>
           [ESendMail (smtpServer env +:+ ":" +:+ Sprintf_d_of_string (smtpPort env))
              (PlainAuth EmptyString (smtpUsername env) (smtpPassword env) (smtpServer env))
              (senderEmail env) [to] (mail_text to url status)]
       end.
Proof. unfold email_events, err_line. cbn zeta. by repeat case_match. Qed.

Lemma unprinted_ssl_events env url :
  unprinted (ssl_events env url)
  = ETlsDial "tcp" (dial_addr url)
    :: match ans_tls_Dial env "tcp" (dial_addr url) with
       | inl _ => []
       | inr conn =>
           match VerifyHostname conn (TrimPrefix url "https://"), PeerCertificates conn with
           | None, c :: _ =>
               [EDbExec checkSSL_query
                  [SqlString (Issuer c);
                   SqlString (ans_time_Format env (NotAfter c) RFC850);
                   SqlString url]]
           | _, _ => []
           end
       end.
Proof. unfold ssl_events, ssl_after_dial, err_line. by repeat case_match. Qed.

Lemma unprinted_down_lines env e : unprinted (down_lines env e) = [].
Proof. reflexivity. Qed.

Lemma ssl_outcome_write_answers env exec post send url :
  ssl_outcome (with_write_answers env exec post send) url = ssl_outcome env url.
Proof.
  unfold ssl_outcome, ssl_after_dial. cbn [ans_tls_Dial with_write_answers].
  by repeat case_match.
Qed.

(** X10: whatever the store answers to the writes, the webhook to the
    posts and the relay to the mails, a check ends the same way and
    performs the same effects; a failed write only adds printed lines. *)
Theorem write_failures_only_print env exec post send url w :
  let env' := with_write_answers env exec post send in
  fst (checkWebsite env' url w) = fst (checkWebsite env url w)
  /\ unprinted (log (snd (checkWebsite env' url w)))
     = unprinted (log (snd (checkWebsite env url w))).
Proof.
  cbn zeta. rewrite !outcome_checkWebsite, !log_checkWebsite. split.
  - unfold checkWebsite_outcome. cbn [ans_http_Get with_write_answers].
    by rewrite ssl_outcome_write_answers.
  - rewrite !unprinted_app. f_equal.
    unfold checkWebsite_events. cbn [ans_http_Get with_write_answers].
    change (?e :: ?l) with ([e] ++ l).
    destruct (ans_http_Get env url) as [e|resp];
      [destruct (Contains e _); [|destruct (Contains e _)]
      |destruct (StatusCode resp =? 200)];
      rewrite !unprinted_app, ?unprinted_status_events, ?unprinted_sample_events,
        ?unprinted_slack_events, ?unprinted_email_events, ?unprinted_ssl_events,
        ?unprinted_down_lines;
      reflexivity.
Qed.

(** ** Further properties of the scheduler *)

Lemma map_index_insert m (url u : string) :
  map_index (<[url := true]> m) u = if decide (url = u) then true else map_index m u.
Proof.
  unfold map_index. destruct (decide (url = u)) as [->|Hne].
  - by rewrite lookup_insert_eq.
  - by rewrite lookup_insert_ne.
Qed.

Lemma tick_iteration_run env url w :
  tick_iteration env url w
  = if map_index (checkedURLs w) url then (Ret tt, w)
    else match checkWebsite_outcome env url with
         | Ret _ =>
             (Ret tt, World (<[url := true]> (checkedURLs w))
                            (log w ++ checkWebsite_events env url))
         | Panic msg => (Panic msg, add_log w (checkWebsite_events env url))
         | Exit c => (Exit c, add_log w (checkWebsite_events env url))
         end.
Proof.
  unfold tick_iteration. rewrite (bind_run _ _ _ _ _ (shouldCheck_run url w)).
  destruct (map_index (checkedURLs w) url); cbn [negb]; [reflexivity|].
  unfold bind. rewrite checkWebsite_run.
  by destruct (checkWebsite_outcome env url) as [[]|msg|c].
Qed.

Lemma on_tick_fetched env websites w :
  ans_db_Query_Scan env getWebsiteURLs_query = inr websites ->
  on_tick env w
  = for_range websites (tick_iteration env) (add_log w [EDbQuery getWebsiteURLs_query]).
Proof.
  intros Hfetch. unfold on_tick, getWebsiteURLs. rewrite Hfetch.
  erewrite bind_run by apply call_run. reflexivity.
Qed.

Lemma for_range_cons_ret {A} (body : A -> M unit) x xs w w' :
  for_range (x :: xs) body w = (Ret tt, w') ->
  exists w1, body x w = (Ret tt, w1) /\ for_range xs body w1 = (Ret tt, w').
Proof.
  cbn [for_range]. unfold bind.
  destruct (body x w) as [[[]|msg|c] w1]; [eauto | discriminate ..].
Qed.

(** A pass of the tick loop that returns: what it probed and marked. *)
Lemma tick_loop_returns env websites : forall w w',
  for_range websites (tick_iteration env) w = (Ret tt, w') ->
  (forall u, probe_count u (log w')
             = (probe_count u (log w)
                + if decide (u ∈ websites /\ ¬ marked u w) then 1 else 0)%nat)
  /\ (forall u, marked u w' <-> marked u w \/ u ∈ websites).
Proof.
  induction websites as [|x xs IH]; intros w w' Hrun.
  - injection Hrun as <-. split; intros u.
    + rewrite decide_False; [lia|]. rewrite elem_of_nil. tauto.
    + rewrite elem_of_nil. tauto.
  - apply for_range_cons_ret in Hrun as (w1 & Hx & Hxs).
    destruct (IH _ _ Hxs) as [IHcount IHmark]. clear IH Hxs.
    rewrite tick_iteration_run in Hx.
    destruct (map_index (checkedURLs w) x) eqn:Hidx.
    + injection Hx as <-.
      assert (Hmx : marked x w) by exact Hidx.
      split; intros u.
      * rewrite IHcount. f_equal. apply decide_ext.
        rewrite elem_of_cons. destruct (decide (u = x)) as [->|Hne]; tauto.
      * rewrite IHmark, elem_of_cons.
        destruct (decide (u = x)) as [->|Hne]; tauto.
    + destruct (checkWebsite_outcome env x) as [[]|msg|c]; [|discriminate ..].
      injection Hx as <-.
      assert (Hm1 : forall u, marked u (World (<[x:=true]> (checkedURLs w))
                                            (log w ++ checkWebsite_events env x))
                              <-> u = x \/ marked u w).
      { intros u. unfold marked. cbn [checkedURLs]. rewrite map_index_insert.
        destruct (decide (x = u)) as [->|Hne]; [tauto|].
        split; [tauto|]. intros [->|H]; [done | exact H]. }
      assert (Hnx : ¬ marked x w) by (unfold marked; by rewrite Hidx).
      split; intros u.
      * rewrite IHcount. cbn [log].
        rewrite probe_count_app, probe_count_checkWebsite.
        destruct (decide (x = u)) as [->|Hne].
        -- rewrite decide_False by (rewrite Hm1; tauto).
           rewrite decide_True; [lia|]. rewrite elem_of_cons. tauto.
        -- rewrite Nat.add_0_r. f_equal. apply decide_ext.
           rewrite Hm1, elem_of_cons.
           assert (Hne' : u <> x) by congruence. tauto.
      * rewrite IHmark, Hm1, elem_of_cons. tauto.
Qed.

(** X13: when the url query of a tick fails, the tick prints the error
    and is skipped: nothing is probed, the dedup set is untouched, and
    the loop goes on with the next timer event. *)
Theorem tick_fetch_failure_is_skipped env sched w e :
  ans_db_Query_Scan env getWebsiteURLs_query = inl e ->
  run_loop (Tick env :: sched) w
  = run_loop sched
      (add_log w [EDbQuery getWebsiteURLs_query;
                  EPrint ("Error fetching website URLs: " +:+ e +:+ nl)]).
Proof.
  intros Hfetch. cbn [run_loop]. erewrite bind_run; [reflexivity|].
  unfold on_tick, getWebsiteURLs. rewrite Hfetch.
  erewrite bind_run by apply call_run. unfold fmt_Print.
  by rewrite emit_run, add_log_add_log.
Qed.

Lemma tick_fetch_failure_is_skipped_witness :
  let env := Faulty.env (inl "invalid connection") (inr "owner@example.com") in
  ans_db_Query_Scan env getWebsiteURLs_query = inl "invalid connection"
  /\ run_loop [Tick env] start
     = (Ret tt, add_log start
                  [EDbQuery getWebsiteURLs_query;
                   EPrint ("Error fetching website URLs: invalid connection" +:+ nl)]).
Proof.
  split; [reflexivity|].
  apply (tick_fetch_failure_is_skipped
           (Faulty.env (inl "invalid connection") (inr "owner@example.com")) [] start
           "invalid connection"). reflexivity.
Defined.



(** ** Start-up and the life of the process *)

Lemma probes_app l1 l2 : probes (l1 ++ l2) = probes l1 ++ probes l2.
Proof. apply omap_app. Qed.

Lemma probes_slack_events env message : probes (slack_events env message) = [].
Proof. unfold slack_events, probes. cbn zeta. by repeat case_match. Qed.

(** The startup loop of [main]: how it runs from any world. *)
Lemma startup_loop_run env websites : forall w,
  exists o l,
    for_range websites (checkWebsite env) w = (o, add_log w l)
    /\ (o = Ret tt -> probes l = websites).
Proof.
  induction websites as [|x xs IH]; intros w.
  - exists (Ret tt), []. by rewrite add_log_nil.
  - cbn [for_range]. unfold bind. rewrite checkWebsite_run.
    destruct (checkWebsite_outcome env x) as [[]|msg|c].
    + destruct (IH (add_log w (checkWebsite_events env x))) as (o & l & -> & Hl).
      exists o, (checkWebsite_events env x ++ l). rewrite add_log_add_log.
      split; [reflexivity|]. intros Ho.
      by rewrite probes_app, probes_checkWebsite, (Hl Ho).
    + eexists _, _. split; [reflexivity | discriminate].
    + eexists _, _. split; [reflexivity | discriminate].
Qed.

(** X14: the startup loop of [main] never reads or writes the dedup set:
    it leaves the set as it was, and when it returns it has probed every
    listed url, marked or not, once per occurrence and in list order. *)
Theorem startup_loop_ignores_dedup_set env websites w :
  let r := for_range websites (checkWebsite env) w in
  checkedURLs (snd r) = checkedURLs w
  /\ (fst r = Ret tt -> probes (log (snd r)) = probes (log w) ++ websites).
Proof.
  cbn zeta. destruct (startup_loop_run env websites w) as (o & l & -> & Hl).
  cbn [fst snd]. split; [reflexivity|]. intros Ho.
  unfold add_log; cbn [log]. by rewrite probes_app, (Hl Ho).
Qed.

Lemma startup_loop_ignores_dedup_set_witness :
  let env := Demo.env None [] in
  let w := snd (markChecked "https://ok.test" start) in
  let r := for_range ["https://ok.test"; "https://slow.test"] (checkWebsite env) w in
  (marked "https://ok.test" w /\ fst r = Ret tt)
  /\ checkedURLs (snd r) = checkedURLs w
  /\ probes (log (snd r)) = ["https://ok.test"; "https://slow.test"].
Proof.
  split; [split; reflexivity|].
  pose proof (startup_loop_ignores_dedup_set (Demo.env None [])
                ["https://ok.test"; "https://slow.test"]
                (snd (markChecked "https://ok.test" start))) as [Hkeep Hprobes].
  split; [exact Hkeep | exact (Hprobes eq_refl)].
Defined.

(** X15: when [godotenv.Load] fails, [main] prints the error and calls
    [os.Exit(1)] before anything else: no chat message, no connection to
    the store, no probe. *)
Theorem dotenv_failure_exits_first env sched w e :
  ans_godotenv_Load env = Some e ->
  main env sched w = (Exit 1, add_log w [EPrint e]).
Proof.
  intros Hload. unfold main, loadEnv. rewrite Hload.
  erewrite bind_exit; [reflexivity|].
  unfold fmt_Print. erewrite bind_run by apply emit_run. reflexivity.
Qed.

Lemma dotenv_failure_exits_first_witness :
  ans_godotenv_Load Demo.no_dotenv = Some "open .env: no such file or directory"
  /\ main Demo.no_dotenv [] start
     = (Exit 1, add_log start [EPrint "open .env: no such file or directory"]).
Proof.
  split; [reflexivity|].
  apply (dotenv_failure_exits_first Demo.no_dotenv [] start
           "open .env: no such file or directory"). reflexivity.
Defined.

(** [main] once the settings are loaded and the store is open: what it
    has done when it reaches its first loop. *)
Lemma main_started_at env sched w :
  ans_godotenv_Load env = None ->
  ans_sql_Open env "mysql" (dsn env) = None ->
  main env sched w
  = (for_range (match ans_db_Query_Scan env getWebsiteURLs_query with
                | inl _ => []
                | inr websites => websites
                end) (checkWebsite env) ;;
     run_loop sched ;; ret Selecting)
      (add_log w
         (startup_events env
          ++ EDbQuery getWebsiteURLs_query
             :: match ans_db_Query_Scan env getWebsiteURLs_query with
                | inl e => [EPrint ("Error fetching website URLs: " +:+ e +:+ nl)]
                | inr _ => []
                end)).
Proof.
  intros Hload Hopen. unfold main, loadEnv. rewrite Hload.
  rewrite bind_ret_l.
  erewrite bind_run by apply sendSlackMessage_run.
  erewrite bind_run by apply emit_run.
  fold (dsn env). rewrite Hopen.
  unfold fmt_Print. erewrite bind_run by apply emit_run.
  erewrite bind_run by apply sendSlackMessage_run.
  unfold getWebsiteURLs, startup_events.
  destruct (ans_db_Query_Scan env getWebsiteURLs_query) as [e|websites].
  - erewrite bind_run by apply call_run. cbn [if_err].
    erewrite bind_run by apply emit_run.
    rewrite !add_log_add_log, <- !app_assoc. reflexivity.
  - erewrite bind_run by apply call_run. cbn [if_err]. rewrite bind_ret_l.
    rewrite !add_log_add_log, <- !app_assoc. reflexivity.
Qed.

Lemma probes_startup_events env : probes (startup_events env) = [].
Proof.
  unfold startup_events. by rewrite !probes_app, !probes_slack_events.
Qed.

Lemma main_started env sched w :
  ans_godotenv_Load env = None ->
  (forall driver dsn, ans_sql_Open env driver dsn = None) ->
  exists pre,
    probes pre = []
    /\ main env sched w
       = (for_range (match ans_db_Query_Scan env getWebsiteURLs_query with
                     | inl _ => []
                     | inr websites => websites
                     end) (checkWebsite env) ;;
          run_loop sched ;; ret Selecting) (add_log w pre).
Proof.
  intros Hload Hopen.
  rewrite (main_started_at env sched w Hload (Hopen _ _)).
  eexists. split; [|reflexivity].
  rewrite probes_app, probes_startup_events.
  by destruct (ans_db_Query_Scan env getWebsiteURLs_query).
Qed.

(** X16: when the first url query of [main] fails, [main] prints the
    error and enters the timer loop all the same, having probed nothing:
    up to there its effects are the start-up messages, the opening of
    the store, the failed query and the printed line. *)
Theorem startup_fetch_failure_enters_loop env sched w e :
  ans_godotenv_Load env = None ->
  (forall driver dsn, ans_sql_Open env driver dsn = None) ->
  ans_db_Query_Scan env getWebsiteURLs_query = inl e ->
  let done :=
    startup_events env
    ++ [EDbQuery getWebsiteURLs_query;
        EPrint ("Error fetching website URLs: " +:+ e +:+ nl)] in
  main env sched w = (run_loop sched ;; ret Selecting) (add_log w done)
  /\ probes done = [].
Proof.
  intros Hload Hopen Hfetch. cbn zeta. split.
  - rewrite (main_started_at env sched w Hload (Hopen _ _)), Hfetch.
    cbn [for_range]. by rewrite bind_ret_l.
  - by rewrite probes_app, probes_startup_events.
Qed.

Lemma startup_fetch_failure_enters_loop_witness :
  let env := Faulty.env (inl "invalid connection") (inr "owner@example.com") in
  let done :=
    startup_events env
    ++ [EDbQuery getWebsiteURLs_query;
        EPrint ("Error fetching website URLs: invalid connection" +:+ nl)] in
  ans_db_Query_Scan env getWebsiteURLs_query = inl "invalid connection"
  /\ main env [] start = (Ret Selecting, add_log start done)
  /\ probes done = [].
Proof.
  split; [reflexivity|].
  apply (startup_fetch_failure_enters_loop
           (Faulty.env (inl "invalid connection") (inr "owner@example.com"))
           [] start "invalid connection" eq_refl (fun _ _ => eq_refl) eq_refl).
Defined.

Lemma ends_well_bind {A B} (m : M A) (k : A -> M B) w :
  ends_well (fst (m w)) ->
  (forall a w1, ends_well (fst (k a w1))) ->
  ends_well (fst (bind m k w)).
Proof.
  intros Hm Hk. unfold bind. destruct (m w) as [[a|msg|c] w1]; cbn [fst] in *; auto.
Qed.

Lemma ends_well_checkWebsite env url w : ends_well (fst (checkWebsite env url w)).
Proof.
  rewrite outcome_checkWebsite. unfold checkWebsite_outcome.
  destruct (ans_http_Get env url) as [e|resp]; [exact I|].
  destruct (StatusCode resp =? 200); [|exact I].
  unfold ssl_outcome, ssl_after_dial.
  destruct (ans_tls_Dial env _ _) as [err|conn]; cbn [fst ends_well].
  { left. apply HasPrefix_append. }
  destruct (VerifyHostname conn _) as [err|]; cbn [fst ends_well].
  { right. left. apply HasPrefix_append. }
  destruct (PeerCertificates conn); cbn [fst ends_well]; [|exact I].
  right. right. reflexivity.
Qed.

Lemma ends_well_for_range {A} (body : A -> M unit) xs :
  (forall x w, ends_well (fst (body x w))) ->
  forall w, ends_well (fst (for_range xs body w)).
Proof.
  intros Hbody. induction xs as [|x xs IH]; intros w; cbn [for_range].
  - exact I.
  - apply ends_well_bind; auto.
Qed.

Lemma ends_well_tick_iteration env url w : ends_well (fst (tick_iteration env url w)).
Proof.
  unfold tick_iteration. apply ends_well_bind; [exact I|].
  intros [] w1; [|exact I].
  apply ends_well_bind; [apply ends_well_checkWebsite | intros; exact I].
Qed.

Lemma ends_well_on_tick env w : ends_well (fst (on_tick env w)).
Proof.
  unfold on_tick. apply ends_well_bind.
  - unfold getWebsiteURLs. erewrite bind_run by apply emit_run.
    by destruct (ans_db_Query_Scan env _).
  - intros [websites [e|]] w1; [exact I|].
    apply (ends_well_for_range (tick_iteration env)). apply ends_well_tick_iteration.
Qed.

Lemma ends_well_run_loop sched : forall w, ends_well (fst (run_loop sched w)).
Proof.
  induction sched as [|[env|] sched IH]; intros w; cbn [run_loop].
  - exact I.
  - apply ends_well_bind; [apply ends_well_on_tick | auto].
  - apply ends_well_bind; [exact I | auto].
Qed.

(** X17: once the settings are loaded and the store is open, [main]
    never returns and never calls [os.Exit], whatever the timers and the
    outside world do: at the end of any schedule it is still waiting in
    its loop, or it has died of one of the panics of [checkSSL] (exit
    status 2). *)
Theorem started_main_ends_only_by_checkSSL_panic env sched w :
  ans_godotenv_Load env = None ->
  (forall driver dsn, ans_sql_Open env driver dsn = None) ->
  let o := fst (main env sched w) in
  (o = Ret Selecting /\ exit_status o = None)
  \/ (exists msg, o = Panic msg /\ ssl_panic msg /\ exit_status o = Some 2).
Proof.
  intros Hload Hopen. cbn zeta.
  destruct (main_started env sched w Hload Hopen) as (pre & _ & ->).
  set (ws := match ans_db_Query_Scan env _ with inl _ => [] | inr websites => websites end).
  pose proof (ends_well_for_range (checkWebsite env) ws (ends_well_checkWebsite env)
                (add_log w pre)) as Hstart.
  destruct (for_range ws (checkWebsite env) (add_log w pre)) as [[[]|msg|c] w1] eqn:Hs;
    cbn [fst ends_well] in Hstart; [| |done].
  2: { rewrite (bind_panic _ _ _ _ _ Hs). right. exists msg. by repeat split. }
  rewrite (bind_run _ _ _ _ _ Hs).
  pose proof (ends_well_run_loop sched w1) as Hloop.
  destruct (run_loop sched w1) as [[[]|msg|c] w2] eqn:Hl;
    cbn [fst ends_well] in Hloop; [| |done].
  - rewrite (bind_run _ _ _ _ _ Hl). left. split; reflexivity.
  - rewrite (bind_panic _ _ _ _ _ Hl). right. exists msg. by repeat split.
Qed.

Lemma started_main_ends_only_by_checkSSL_panic_witness :
  let env := Demo.env None ["https://ok.test"; "https://bad.test"] in
  let o := fst (main env [Tick env; ResetFired] start) in
  ans_godotenv_Load env = None
  /\ ((o = Ret Selecting /\ exit_status o = None)
      \/ (exists msg, o = Panic msg /\ ssl_panic msg /\ exit_status o = Some 2)).
Proof.
  split; [reflexivity|].
  apply (started_main_ends_only_by_checkSSL_panic
           (Demo.env None ["https://ok.test"; "https://bad.test"])
           [Tick (Demo.env None ["https://ok.test"; "https://bad.test"]); ResetFired]
           start eq_refl (fun _ _ => eq_refl)).
Defined.

(** ** The loop, step by step *)

Lemma getWebsiteURLs_run env w :
  getWebsiteURLs env w
  = (Ret match ans_db_Query_Scan env getWebsiteURLs_query with
         | inl e => ([], Some e)
         | inr websites => (websites, None)
         end,
     add_log w [EDbQuery getWebsiteURLs_query]).
Proof.
  unfold getWebsiteURLs. erewrite bind_run by apply emit_run.
  by destruct (ans_db_Query_Scan env getWebsiteURLs_query).
Qed.

Lemma loop_run_cons ev evs st : loop_run (ev :: evs) st = loop_run evs (loop_step st ev).
Proof. reflexivity. Qed.

Lemma loop_run_app evs1 evs2 st :
  loop_run (evs1 ++ evs2) st = loop_run evs2 (loop_run evs1 st).
Proof. apply foldl_app. Qed.

Lemma loop_step_fire env w c :
  loop_step (LoopState Waiting w c) (Fire env)
  = match ans_db_Query_Scan env getWebsiteURLs_query with
    | inl e =>
        LoopState Waiting
          (add_log w [EDbQuery getWebsiteURLs_query;
                      EPrint ("Error fetching website URLs: " +:+ e +:+ nl)]) c
    | inr websites =>
        LoopState (Guarding env websites) (add_log w [EDbQuery getWebsiteURLs_query]) c
    end.
Proof.
  unfold loop_step. cbn [pc now window_start]. rewrite getWebsiteURLs_run.
  destruct (ans_db_Query_Scan env getWebsiteURLs_query); [|reflexivity].
  unfold fmt_Print. by rewrite emit_run, add_log_add_log.
Qed.

(** Once the process is gone nothing happens any more. *)
Lemma loop_run_dead evs st : pc st = Dead -> loop_run evs st = st.
Proof.
  intros Hdead. induction evs as [|ev evs IH]; [reflexivity|].
  rewrite loop_run_cons. unfold loop_step. by rewrite Hdead.
Qed.

(** While [main] waits, its own steps change nothing. *)
Lemma loop_run_idle n st : pc st = Waiting -> loop_run (repeat Advance n) st = st.
Proof.
  intros Hpc. induction n as [|n IH]; [reflexivity|].
  cbn [repeat]. rewrite loop_run_cons. unfold loop_step. by rewrite Hpc.
Qed.












(** ** Status records and owner lookups follow the probes *)















(** Where the main goroutine stands after a pass that ended with [o]. *)
Lemma pass_without_reset env urls : forall n w c,
  (2 * length urls + 1 <= n)%nat ->
  loop_run (repeat Advance n) (LoopState (Guarding env urls) w c)
  = LoopState (match fst (for_range urls (tick_iteration env) w) with
               | Ret _ => Waiting
               | _ => Dead
               end)
      (snd (for_range urls (tick_iteration env) w)) c.
Proof.
  induction urls as [|url urls IH]; intros n w c Hn.
  - destruct n as [|n]; [cbn in Hn; lia|]. cbn [repeat].
    rewrite loop_run_cons. by apply loop_run_idle.
  - cbn [length] in Hn. destruct n as [|n]; [lia|]. cbn [repeat for_range].
    rewrite loop_run_cons. unfold loop_step at 1. cbn [pc now window_start].
    unfold bind. rewrite tick_iteration_run, shouldCheck_run.
    destruct (map_index (checkedURLs w) url); cbn [negb].
    + apply IH. lia.
    + rewrite checkWebsite_run.
      destruct (checkWebsite_outcome env url) as [[]|msg|code];
        [|by apply loop_run_dead ..].
      destruct n as [|n]; [lia|]. cbn [repeat].
      rewrite loop_run_cons. unfold loop_step at 1. cbn [pc now window_start].
      rewrite markChecked_run. cbn [snd add_log checkedURLs log].
      apply IH. lia.
Qed.

Lemma on_tick_failed env w e :
  ans_db_Query_Scan env getWebsiteURLs_query = inl e ->
  on_tick env w
  = (Ret tt, add_log w [EDbQuery getWebsiteURLs_query;
                        EPrint ("Error fetching website URLs: " +:+ e +:+ nl)]).
Proof.
  intros Hfetch. unfold on_tick.
  rewrite (bind_run _ _ _ _ _ (getWebsiteURLs_run env w)), Hfetch.
  unfold fmt_Print. by rewrite emit_run, add_log_add_log.
Qed.

(** [run_loop] is the step-by-step loop on the schedules where every
    pass runs to its end before the next timer event. *)
Lemma run_loop_in_steps sched : forall w c,
  let st := loop_run (steps_of_schedule sched) (LoopState Waiting w c) in
  now st = snd (run_loop sched w)
  /\ pc st = match fst (run_loop sched w) with Ret _ => Waiting | _ => Dead end.
Proof.
  induction sched as [|[env|] sched IH]; intros w c; cbn zeta.
  - by split.
  - unfold steps_of_schedule. cbn [map concat steps_of run_loop].
    rewrite <- app_comm_cons, loop_run_cons, loop_run_app, loop_step_fire.
    unfold pass_steps.
    destruct (ans_db_Query_Scan env getWebsiteURLs_query) as [e|websites] eqn:Hfetch.
    + rewrite (bind_run _ _ _ _ _ (on_tick_failed env w e Hfetch)).
      cbn [repeat]. change (loop_run [] ?st) with st. apply IH.
    + rewrite pass_without_reset by lia.
      pose proof (on_tick_fetched env websites w Hfetch) as Htick.
      destruct (for_range websites (tick_iteration env) _) as [[[]|msg|code] w1];
        cbn [fst snd].
      * rewrite (bind_run _ _ _ _ _ Htick). apply IH.
      * rewrite (bind_panic _ _ _ _ _ Htick). by rewrite loop_run_dead.
      * rewrite (bind_exit _ _ _ _ _ Htick). by rewrite loop_run_dead.
  - unfold steps_of_schedule. cbn [map concat steps_of run_loop app].
    rewrite loop_run_cons.
    change (loop_step (LoopState Waiting w c) GoroutineReset)
      with (LoopState Waiting (World ∅ (log w)) (length (log w))).
    rewrite (bind_run _ _ _ _ _ (resetCheckedURLs_run w)). apply IH.
Qed.

(** X11: a tick pass that runs to its end with no reset inside, and
    does not die of a panic, has probed once exactly the fetched urls
    that were not marked when it began, has probed no other url, and
    leaves marked what was marked and what was fetched. *)
Theorem tick_pass_probes_the_unmarked env websites w c st :
  ans_db_Query_Scan env getWebsiteURLs_query = inr websites ->
  loop_run (Fire env :: repeat Advance (2 * length websites + 1))
    (LoopState Waiting w c) = st ->
  pc st = Waiting ->
  (forall u, probe_count u (log (now st))
             = (probe_count u (log w)
                + if decide (u ∈ websites /\ ¬ marked u w) then 1 else 0)%nat)
  /\ (forall u, marked u (now st) <-> marked u w \/ u ∈ websites).
Proof.
  intros Hfetch Hrun Hpc. rewrite loop_run_cons, loop_step_fire, Hfetch in Hrun.
  rewrite pass_without_reset in Hrun by lia. subst st. cbn [pc now] in *.
  destruct (for_range websites (tick_iteration env) _) as [[[]|msg|code] w'] eqn:Hpass;
    cbn [fst snd] in *; try discriminate.
  apply tick_loop_returns in Hpass as [Hcount Hmark]. split; intros u.
  - rewrite Hcount. unfold add_log at 1; cbn [log]. rewrite probe_count_app.
    change (probe_count u [_]) with 0%nat. rewrite Nat.add_0_r. f_equal.
  - by rewrite Hmark.
Qed.

Lemma tick_pass_probes_the_unmarked_witness :
  let env := Demo.env None ["https://ok.test"; "https://slow.test"] in
  let w := snd (markChecked "https://slow.test" start) in
  let st := loop_run (Fire env :: repeat Advance 5) (LoopState Waiting w 0) in
  (ans_db_Query_Scan env getWebsiteURLs_query = inr ["https://ok.test"; "https://slow.test"]
   /\ pc st = Waiting)
  /\ probe_count "https://ok.test" (log (now st)) = 1%nat
  /\ probe_count "https://slow.test" (log (now st)) = 0%nat.
Proof.
  split; [split; reflexivity|].
  pose proof (tick_pass_probes_the_unmarked
                (Demo.env None ["https://ok.test"; "https://slow.test"])
                ["https://ok.test"; "https://slow.test"]
                (snd (markChecked "https://slow.test" start)) 0 _
                eq_refl eq_refl eq_refl) as [Hcount _].
  split.
  - etransitivity; [exact (Hcount "https://ok.test") | reflexivity].
  - etransitivity; [exact (Hcount "https://slow.test") | reflexivity].
Defined.

Lemma loop_step_skip env url urls w c :
  marked url w ->
  loop_step (LoopState (Guarding env (url :: urls)) w c) Advance
  = LoopState (Guarding env urls) w c.
Proof.
  intros Hurl. unfold loop_step. cbn [pc now window_start].
  rewrite shouldCheck_run. unfold marked in Hurl. by rewrite Hurl.
Qed.

Lemma marked_pass_idle env n : forall urls w c,
  (forall u, u ∈ urls -> marked u w) ->
  now (loop_run (repeat Advance n) (LoopState (Guarding env urls) w c)) = w
  /\ window_start (loop_run (repeat Advance n) (LoopState (Guarding env urls) w c)) = c.
Proof.
  induction n as [|n IH]; intros urls w c Hall; [by split|].
  cbn [repeat]. rewrite loop_run_cons. destruct urls as [|url urls].
  - change (loop_step (LoopState (Guarding env []) w c) Advance)
      with (LoopState Waiting w c).
    by rewrite loop_run_idle.
  - rewrite loop_step_skip by (apply Hall; apply list_elem_of_here).
    apply IH. intros u Hu. apply Hall. by apply list_elem_of_further.
Qed.

(** X12: as long as no reset falls in it, a tick pass over urls that are
    all marked does nothing but the url query, however far it has got:
    no probe, no status record, no notification, and the dedup set and
    the window stay as they were. *)
Theorem tick_over_marked_urls_is_idle env websites w c n :
  ans_db_Query_Scan env getWebsiteURLs_query = inr websites ->
  (forall u, u ∈ websites -> marked u w) ->
  let st := loop_run (Fire env :: repeat Advance n) (LoopState Waiting w c) in
  now st = add_log w [EDbQuery getWebsiteURLs_query]
  /\ window_start st = c.
Proof.
  intros Hfetch Hall. cbn zeta. rewrite loop_run_cons, loop_step_fire, Hfetch.
  apply marked_pass_idle. exact Hall.
Qed.

Lemma tick_over_marked_urls_is_idle_witness :
  let env := Demo.env None ["https://slow.test"] in
  let w := snd (markChecked "https://slow.test" start) in
  (ans_db_Query_Scan env getWebsiteURLs_query = inr ["https://slow.test"]
   /\ marked "https://slow.test" w)
  /\ now (loop_run [Fire env; Advance; Advance; Advance] (LoopState Waiting w 0))
     = add_log w [EDbQuery getWebsiteURLs_query].
Proof.
  split; [split; reflexivity|].
  apply (tick_over_marked_urls_is_idle (Demo.env None ["https://slow.test"])
           ["https://slow.test"] (snd (markChecked "https://slow.test" start)) 0 3);
    [reflexivity|].
  intros u Hu. apply list_elem_of_singleton in Hu as ->. reflexivity.
Defined.

(** With a reset inside the pass the marks of the pass are lost: a url
    probed before the reset is probed again by the next pass. *)
Lemma reset_inside_a_pass_loses_marks :
  let env := Demo.env None ["https://ok.test"; "https://slow.test"] in
  let st := loop_run [Fire env; Advance; Advance; GoroutineReset; Advance; Advance;
                      Advance]
              (LoopState Waiting start 0) in
  pc st = Waiting
  /\ marked "https://slow.test" (now st)
  /\ ¬ marked "https://ok.test" (now st).
Proof. vm_compute. split; [reflexivity|]. split; [reflexivity | discriminate]. Qed.
